(** * Fedify federation handlers: a shallow embedding

    This development embeds the request handlers of the federation core
    ([acceptsJsonLd], [handleActor], [handleObject], [handleCollection],
    [filterCollectionItems], [handleInbox], [respondWithObject] and
    [respondWithObjectIfAcceptable]) and proves properties of them.

    Conventions.
    - An [async] function is a program in the monad [Prog]: it threads a
      state (the key-value store, for the inbox), appends the calls it makes
      to external collaborators to a trace, and ends in a value, an early
      [return] of a response, or a thrown error.
    - The collaborators that the handlers import ([accepts], [verifyObject],
      [verifyRequest], [doesActorOwnKey], [Activity.fromJsonLd], the URL
      serializer) are the fields of the class [Externals]; the callbacks the
      handlers receive in their parameter bags are fields of the parameter
      records, as in the source.
    - A collaborator answers as its interface says. The calls that the
      inbox wraps in [try]/[catch] (reading the body, verifying the embedded
      proof, running the listener) may throw, and so may the deserializer
      [Activity.fromJsonLd], whose exception leaves the handler. The other
      awaited collaborators (the store, [verifyRequest], [doesActorOwnKey],
      the callbacks) are taken to answer; what the handlers do when one of
      them throws is outside this development.
    - [JSON.stringify(await x.toJsonLd(context))] is kept symbolic: the body
      of such a response is [JsonLd x]. *)

From stdpp Require Import gmap strings list fin_maps.
From Stdlib Require Import ZArith Sorted.

Local Open Scope string_scope.
Local Open Scope Z_scope.
Local Open Scope list_scope.

(** ** JavaScript values used by the handlers *)

(** Numbers: the handlers only produce numbers that count items, so the
    finite numbers of the model are the integral ones. *)
Inductive number :=
| NaN
| Infinity (negative : bool)
| Num (z : Z).

(** A value read from the key-value store ([kv.get] is typed [unknown]);
    a missing key is [undefined], modelled by [None] at the lookup. *)
Inductive Value :=
| VNull
| VBool (b : bool)
| VNumber (n : number)
| VString (s : string).

(** ECMAScript ToBoolean. *)
Definition truthy (v : Value) : bool :=
  match v with
  | VNull => false
  | VBool b => b
  | VNumber NaN => false
  | VNumber (Num z) => negb (z =? 0)
  | VNumber (Infinity _) => true
  | VString s => negb (String.eqb s "")
  end.

(** [v === true]. *)
Definition strictly_true (v : option Value) : bool :=
  match v with
  | Some (VBool true) => true
  | _ => false
  end.

(** What [await collectionCallbacks.counter?.(context, handle)] evaluates
    to: [undefined] when the callback is absent, otherwise the callback's
    [number | bigint | null]. *)
Inductive CounterResult :=
| CUndefined
| CNull
| CNumber (n : number)
| CBigInt (z : Z).

(** Rounding of an integer to the nearest double (ties to even), as
    [Number(bigint)] does. Integers below 2^53 in magnitude are exact. *)
Definition bigint_to_number (z : Z) : number :=
  let a := Z.abs z in
  if a <? 2 ^ 53 then Num z
  else
    let k := Z.log2 a - 52 in
    let q := a / 2 ^ k in
    let r := a mod 2 ^ k in
    let half := 2 ^ (k - 1) in
    let q' := if r <? half then q
              else if half <? r then q + 1
              else if Z.even q then q else q + 1 in
    let m := q' * 2 ^ k in
    if 2 ^ 1024 <=? m then Infinity (z <? 0) else Num (Z.sgn z * m).

(** The global [Number(...)] on the values a counter can produce. *)
Definition Number (v : CounterResult) : number :=
  match v with
  | CUndefined => NaN
  | CNull => Num 0
  | CNumber n => n
  | CBigInt z => bigint_to_number z
  end.

(** ** URLs and their search parameters (WHATWG URL API) *)

Record URL := mkURL {
  url_base : string;                       (* scheme, authority and path *)
  searchParams : list (string * string);   (* the query, in order *)
  url_hash : string
}.

#[global] Instance URL_eq_dec : EqDecision URL.
Proof. solve_decision. Defined.

Module SearchParams.

(** [searchParams.get(name)]: the first value of [name], or [null]. *)
Fixpoint get (name : string) (ps : list (string * string)) : option string :=
  match ps with
  | [] => None
  | (n, v) :: rest => if String.eqb n name then Some v else get name rest
  end.

(** [searchParams.delete(name)]: all pairs named [name] are removed. *)
Fixpoint delete (name : string) (ps : list (string * string))
  : list (string * string) :=
  match ps with
  | [] => []
  | (n, v) :: rest =>
      if String.eqb n name then delete name rest
      else (n, v) :: delete name rest
  end.

(** [searchParams.set(name, value)]: the first pair named [name] takes the
    new value and the other pairs of that name are removed; when there is
    none, the pair is appended. *)
Fixpoint set (name value : string) (ps : list (string * string))
  : list (string * string) :=
  match ps with
  | [] => [(name, value)]
  | (n, v) :: rest =>
      if String.eqb n name then (n, value) :: delete name rest
      else (n, v) :: set name value rest
  end.

End SearchParams.

(** [const u = new URL(url); u.searchParams.set(name, value)]. *)
Definition url_with_param (name value : string) (u : URL) : URL :=
  {| url_base := url_base u;
     searchParams := SearchParams.set name value (searchParams u);
     url_hash := url_hash u |}.

(** [const u = new URL(url); u.searchParams.delete(name)]. *)
Definition url_without_param (name : string) (u : URL) : URL :=
  {| url_base := url_base u;
     searchParams := SearchParams.delete name (searchParams u);
     url_hash := url_hash u |}.

(** ** The vocabulary *)

(** Vocabulary entities are opaque to the handlers; they are identified by
    their IRI here. *)
Inductive Actor := mkActor (iri : string).
Inductive VObject := mkObject (iri : string).
Inductive Link := mkLink (href : string).
Inductive CryptographicKey := mkKey (iri : string).

(** Constructors of activity classes, [new (...args) => Activity]: the root
    class [Activity], or a class that extends another activity class.
    [Object.getPrototypeOf] of a class constructor is the class it
    extends. *)
Inductive Cls :=
| Activity
| Extends (name : string) (super : Cls).

#[global] Instance Cls_eq_dec : EqDecision Cls.
Proof. solve_decision. Defined.

Fixpoint cls_path (c : Cls) : list string :=
  match c with
  | Activity => []
  | Extends n s => n :: cls_path s
  end.

Fixpoint path_cls (p : list string) : Cls :=
  match p with
  | [] => Activity
  | n :: p' => Extends n (path_cls p')
  end.

#[global] Instance Cls_countable : Countable Cls.
Proof.
  refine (inj_countable' cls_path path_cls _).
  intros c; induction c as [|n s IH]; simpl; [reflexivity | by rewrite IH].
Defined.

(** An activity instance: its constructor and the two properties the inbox
    reads, [activity.id] and [activity.actorId]. *)
Record ActivityValue := mkActivity {
  constructor : Cls;
  activity_id : option URL;
  activity_actorId : option URL
}.

(** What a collection dispatcher may yield as an item: [URL | Object | Link
    | Recipient]; of a recipient that is none of the first three only its
    [id] is read. *)
Inductive Item :=
| ItemObject (o : VObject)
| ItemLink (l : Link)
| ItemURL (u : URL)
| ItemRecipient (id : option URL).

(** What a collection dispatcher returns. *)
Record Page := mkPage {
  items : list Item;
  prevCursor : option string;
  nextCursor : option string
}.

(** An item of an emitted collection: [Object | Link | URL]. *)
Inductive Mapped :=
| MObject (o : VObject)
| MLink (l : Link)
| MURL (u : URL).

Record OrderedCollection := mkOrderedCollection {
  oc_totalItems : option number;
  oc_items : option (list Mapped);
  oc_first : option URL;
  oc_last : option URL
}.

Record OrderedCollectionPage := mkOrderedCollectionPage {
  ocp_prev : option URL;
  ocp_next : option URL;
  ocp_items : list Mapped;
  ocp_partOf : URL
}.

Inductive Entity :=
| EActor (a : Actor)
| EObject (o : VObject)
| ECollection (c : OrderedCollection)
| ECollectionPage (p : OrderedCollectionPage).

(** ** Requests and responses *)

Record Request := mkRequest {
  req_url : URL;
  req_headers : list (string * string);
  req_body : string
}.

Inductive Body :=
| Text (s : string)
| JsonLd (e : Entity).

Record Response := mkResponse {
  status : Z;
  headers : list (string * string);
  body : Body
}.

(** [headers.get(name)] on the headers a handler wrote. *)
Fixpoint header (name : string) (hs : list (string * string)) : option string :=
  match hs with
  | [] => None
  | (n, v) :: rest => if String.eqb n name then Some v else header name rest
  end.

(** [headers.set(name, value)]. *)
Definition header_set (name value : string) (hs : list (string * string))
  : list (string * string) :=
  SearchParams.set name value hs.

(** [request.headers.get("accept")]. The [Headers] class matches names
    without regard to case; the requests of this development write the
    name as [Accept]. *)
Definition accept_header (request : Request) : option string :=
  header "Accept" (req_headers request).

Definition Error := string.

(** The parsed request body; the inbox only hands it on to the verifiers
    and the deserializer. *)
Inductive Json := JsonDocument (text : string).

(** [Temporal.DurationLike], in the units the handlers use. *)
Record Duration := mkDuration {
  days : Z;
  hours : Z;
  minutes : Z;
  seconds : Z
}.

(** [Temporal.Duration.from({ days: 1 })] *)
Definition one_day : Duration :=
  {| days := 1; hours := 0; minutes := 0; seconds := 0 |}.

Definition KvKey := list string.

(** ** Imported collaborators *)

Class Externals := {
  (** [accepts(request)] of [@std/http/negotiation]: the accepted media
      types, most preferred first. The type keeps the [null] that
      [acceptsJsonLd] tests for; see [std_negotiation] for what the library
      answers. *)
  accepts : Request -> option (list string);
  (** [url.href] *)
  href : URL -> string;
  (** [await request.clone().json()] *)
  request_json : Request -> Error + Json;
  (** [await verifyObject(Activity, json, context)] *)
  verifyObject : Json -> Error + option ActivityValue;
  (** [await verifyRequest(request, {...context, timeWindow})] *)
  verifyRequest : Request -> Duration -> option CryptographicKey;
  (** [await Activity.fromJsonLd(json, context)] *)
  fromJsonLd : Json -> Error + ActivityValue;
  (** [await doesActorOwnKey(activity, key, context)] *)
  doesActorOwnKey : ActivityValue -> CryptographicKey -> bool
}.

(** ** Content negotiation *)

(** What [accepts(request)] of [@std/http/negotiation] answers when it is
    called without candidate types, as [acceptsJsonLd] calls it: the media
    types of the [Accept] header in order of preference, and the one-element
    list of the wildcard when the request has no [Accept] header; it is
    typed [string[]] and never answers [null]. *)
Definition std_negotiation `{Externals} : Prop :=
  forall request,
    accepts request <> None
    /\ (accept_header request = None -> accepts request = Some ["*/*"]).

Definition includes (x : string) (xs : list string) : bool :=
  existsb (String.eqb x) xs.

Definition acceptsJsonLd `{Externals} (request : Request) : bool :=
  match accepts request with
  | None => true
  | Some types =>
      if (bool_decide (head types = Some "text/html")
          || bool_decide (head types = Some "application/xhtml+xml"))%bool
      then false
      else (includes "application/activity+json" types
            || includes "application/ld+json" types
            || includes "application/json" types)%bool
  end.

(** ** Programs: state, trace of external calls, early return, exceptions *)

Inductive LogLevel := LevelDebug | LevelInfo | LevelWarning | LevelError.

(** The calls a handler makes to its collaborators, with what they
    answered where a later step depends on it. *)
Inductive Event :=
| Logged (category : list string) (level : LogLevel) (message : string)
| OnNotFound
| OnNotAcceptable
| OnUnauthorized
| GetActor (handle : string) (found : bool)
| ObjectDispatched (found : bool)
| Negotiated (acceptable : bool)
| GetSignedKey
| GetSignedKeyOwner
| Authorized (granted : bool)
| ToJsonLd (e : Entity)
| FirstCursorCalled (cursor : option string)
| CounterCalled
| LastCursorCalled (cursor : option string)
| Dispatched (cursor : option string) (found : bool)
| JsonRead (ok : bool)
| ErrorHandled (error : Error)
| ObjectVerified (outcome : Error + bool)
| RequestVerified (ok : bool)
| Deserialized (ok : bool)
| KvGet (key : KvKey) (cached : option Value)
| OwnershipChecked (owns : bool)
| ListenerCalled (cls : Cls) (activity : ActivityValue) (threw : bool)
| KvSet (key : KvKey) (value : Value) (ttl : Duration).

Inductive Result (A : Type) :=
| Next (a : A)
| Return (r : Response)
| Throw (e : Error).
Arguments Next {A} a.
Arguments Return {A} r.
Arguments Throw {A} e.

Definition Prog (St A : Type) : Type := St -> Result A * St * list Event.

Section Programs.
Context {St : Type}.

Definition ret {A} (a : A) : Prog St A := fun s => (Next a, s, []).

Definition bind {A B} (m : Prog St A) (k : A -> Prog St B) : Prog St B :=
  fun s =>
    match m s with
    | (Next a, s1, t1) => let '(r, s2, t2) := k a s1 in (r, s2, t1 ++ t2)
    | (Return r, s1, t1) => (Return r, s1, t1)
    | (Throw e, s1, t1) => (Throw e, s1, t1)
    end.

(** [return response;] *)
Definition return_ {A} (r : Response) : Prog St A := fun s => (Return r, s, []).

(** [throw error;] (an exception that nothing in the handler catches) *)
Definition throw {A} (e : Error) : Prog St A := fun s => (Throw e, s, []).

(** A call to a collaborator that answers [a]. *)
Definition call {A} (e : Event) (a : A) : Prog St A := fun s => (Next a, s, [e]).

End Programs.

Notation "x <- m ;; k" := (bind m (fun x => k))
  (at level 100, m at next level, right associativity).
Notation "m ;; k" := (bind m (fun _ => k))
  (at level 100, right associativity).

(** A handler always leaves through a [return] or an exception. *)
Definition Handler (St : Type) : Type := Prog St Empty_set.

Inductive Outcome :=
| Responded (r : Response)
| Rejected (e : Error).

Record Run (St : Type) := mkRun {
  outcome : Outcome;
  final : St;
  trace : list Event
}.
Arguments mkRun {St} _ _ _.
Arguments outcome {St} _.
Arguments final {St} _.
Arguments trace {St} _.

Definition run {St} (h : Handler St) (s : St) : Run St :=
  match h s with
  | (Next a, _, _) => match a with end
  | (Return r, s', t) => mkRun (Responded r) s' t
  | (Throw e, s', t) => mkRun (Rejected e) s' t
  end.

Section Statements.
Context {St : Type}.

(** [if (b) return await ...;] *)
Definition when (b : bool) (h : Handler St) : Prog St unit :=
  if b then (a <- h ;; match a : Empty_set with end) else ret tt.

(** [await f(...)] for an async function of this module. *)
Definition await (h : Handler St) : Prog St Response :=
  fun s =>
    match h s with
    | (Next a, _, _) => match a with end
    | (Return r, s', t) => (Next r, s', t)
    | (Throw e, s', t) => (Throw e, s', t)
    end.

(** [return await on...(request);] for one of the fallback callbacks. *)
Definition fallback {A} (e : Event) (on : Request -> Response)
    (request : Request) : Prog St A :=
  call e tt ;; return_ (on request).

Definition log (category : list string) (level : LogLevel) (message : string)
  : Prog St unit :=
  call (Logged category level message) tt.

End Statements.

Definition isnull {A} (o : option A) : bool :=
  match o with None => true | Some _ => false end.

(** ** The request context *)

Record RequestContext := mkContext {
  context_url : URL;   (* [context.url] *)
  getActor : string -> option Actor;
  getSignedKey : option CryptographicKey;
  getSignedKeyOwner : option Actor
}.

Definition ActorDispatcher := string -> option Actor.
Definition AuthorizePredicate :=
  string -> option CryptographicKey -> option Actor -> bool.
Definition ObjectDispatcher := gmap string string -> option VObject.
Definition ObjectAuthorizePredicate :=
  gmap string string -> option CryptographicKey -> option Actor -> bool.

Definition activity_json_headers_vary : list (string * string) :=
  [("Content-Type", "application/activity+json"); ("Vary", "Accept")].

(** ** Actor responder *)

Module ActorHandlerParameters.
Record t := mk {
  handle : string;
  context : RequestContext;
  actorDispatcher : option ActorDispatcher;
  authorizePredicate : option AuthorizePredicate;
  onUnauthorized : Request -> Response;
  onNotFound : Request -> Response;
  onNotAcceptable : Request -> Response
}.
End ActorHandlerParameters.

Definition handleActor {St} `{Externals} (request : Request)
    (parameters : ActorHandlerParameters.t) : Handler St :=
  let '(ActorHandlerParameters.mk handle context actorDispatcher
          authorizePredicate onUnauthorized onNotFound onNotAcceptable) :=
    parameters in
  when (isnull actorDispatcher) (fallback OnNotFound onNotFound request) ;;
  actor <- call (GetActor handle (negb (isnull (getActor context handle))))
             (getActor context handle) ;;
  match actor with
  | None => fallback OnNotFound onNotFound request
  | Some actor =>
      acceptable <- call (Negotiated (acceptsJsonLd request))
                      (acceptsJsonLd request) ;;
      when (negb acceptable)
        (fallback OnNotAcceptable onNotAcceptable request) ;;
      match authorizePredicate with
      | Some authorizePredicate =>
          key <- call GetSignedKey (getSignedKey context) ;;
          keyOwner <- call GetSignedKeyOwner (getSignedKeyOwner context) ;;
          granted <- call (Authorized (authorizePredicate handle key keyOwner))
                       (authorizePredicate handle key keyOwner) ;;
          when (negb granted) (fallback OnUnauthorized onUnauthorized request)
      | None => ret tt
      end ;;
      jsonLd <- call (ToJsonLd (EActor actor)) (JsonLd (EActor actor)) ;;
      return_ {| status := 200;
                 headers := activity_json_headers_vary;
                 body := jsonLd |}
  end.

(** ** Object responder *)

Module ObjectHandlerParameters.
Record t := mk {
  values : gmap string string;
  context : RequestContext;
  objectDispatcher : option ObjectDispatcher;
  authorizePredicate : option ObjectAuthorizePredicate;
  onUnauthorized : Request -> Response;
  onNotFound : Request -> Response;
  onNotAcceptable : Request -> Response
}.
End ObjectHandlerParameters.

Definition handleObject {St} `{Externals} (request : Request)
    (parameters : ObjectHandlerParameters.t) : Handler St :=
  let '(ObjectHandlerParameters.mk values context objectDispatcher
          authorizePredicate onUnauthorized onNotFound onNotAcceptable) :=
    parameters in
  match objectDispatcher with
  | None => fallback OnNotFound onNotFound request
  | Some objectDispatcher =>
      object <- call (ObjectDispatched (negb (isnull (objectDispatcher values))))
                  (objectDispatcher values) ;;
      match object with
      | None => fallback OnNotFound onNotFound request
      | Some object =>
          acceptable <- call (Negotiated (acceptsJsonLd request))
                          (acceptsJsonLd request) ;;
          when (negb acceptable)
            (fallback OnNotAcceptable onNotAcceptable request) ;;
          match authorizePredicate with
          | Some authorizePredicate =>
              key <- call GetSignedKey (getSignedKey context) ;;
              keyOwner <- call GetSignedKeyOwner (getSignedKeyOwner context) ;;
              granted <- call (Authorized (authorizePredicate values key keyOwner))
                           (authorizePredicate values key keyOwner) ;;
              when (negb granted)
                (fallback OnUnauthorized onUnauthorized request)
          | None => ret tt
          end ;;
          jsonLd <- call (ToJsonLd (EObject object)) (JsonLd (EObject object)) ;;
          return_ {| status := 200;
                     headers := activity_json_headers_vary;
                     body := jsonLd |}
      end
  end.

(** ** Collection responder *)

Definition Filter := option string.
Definition CollectionDispatcher := string -> option string -> Filter -> option Page.
Definition CollectionCounter := string -> CounterResult.
Definition CollectionCursor := string -> option string.

Module CollectionCallbacks.
Record t := mk {
  dispatcher : CollectionDispatcher;
  counter : option CollectionCounter;
  firstCursor : option CollectionCursor;
  lastCursor : option CollectionCursor;
  authorizePredicate : option AuthorizePredicate
}.
End CollectionCallbacks.

Module CollectionHandlerParameters.
Record t := mk {
  name : string;
  handle : string;
  filter : Filter;
  filterPredicate : option (Item -> bool);
  context : RequestContext;
  collectionCallbacks : option CollectionCallbacks.t;
  onUnauthorized : Request -> Response;
  onNotFound : Request -> Response;
  onNotAcceptable : Request -> Response
}.
End CollectionHandlerParameters.

Definition filtering_warning (collectionName : string) : string :=
  ("The " ++ collectionName ++ " collection apparently does not implement "
   ++ "filtering.  This may result in a large response payload.  "
   ++ "Please consider implementing filtering for the collection.")%string.

(** The projection of one item: itself for an object, a link or a URL,
    otherwise its [id] (and nothing when that is [null]). *)
Definition mapItem (item : Item) : option Mapped :=
  match item with
  | ItemObject o => Some (MObject o)
  | ItemLink l => Some (MLink l)
  | ItemURL u => Some (MURL u)
  | ItemRecipient None => None
  | ItemRecipient (Some id) => Some (MURL id)
  end.

(** [filterPredicate != null && !filterPredicate(item)] *)
Definition filtered_out (filterPredicate : option (Item -> bool)) (item : Item)
  : bool :=
  match filterPredicate with
  | Some p => negb (p item)
  | None => false
  end.

(** The [for] loop of [filterCollectionItems], with its two mutable
    variables [logged] and [result]. *)
Fixpoint filterCollectionItems_loop {St} (items : list Item)
    (collectionName : string) (filterPredicate : option (Item -> bool))
    (logged : bool) (result : list Mapped) : Prog St (list Mapped) :=
  match items with
  | [] => ret result
  | item :: rest =>
      match mapItem item with
      | None =>
          filterCollectionItems_loop rest collectionName filterPredicate
            logged result
      | Some mappedItem =>
          if filtered_out filterPredicate item then
            (if negb logged
             then log ["fedify"; "federation"; "collection"] LevelWarning
                    (filtering_warning collectionName)
             else ret tt) ;;
            filterCollectionItems_loop rest collectionName filterPredicate
              true result
          else
            filterCollectionItems_loop rest collectionName filterPredicate
              logged (result ++ [mappedItem])
      end
  end.

Definition filterCollectionItems {St} (items : list Item)
    (collectionName : string) (filterPredicate : option (Item -> bool))
  : Prog St (list Mapped) :=
  filterCollectionItems_loop items collectionName filterPredicate false [].

(** [totalItems == null] *)
Definition counter_null (v : CounterResult) : bool :=
  match v with
  | CUndefined | CNull => true
  | _ => false
  end.

Definition handleCollection {St} `{Externals} (request : Request)
    (parameters : CollectionHandlerParameters.t) : Handler St :=
  let '(CollectionHandlerParameters.mk name handle filter filterPredicate
          context collectionCallbacks onUnauthorized onNotFound
          onNotAcceptable) := parameters in
  match collectionCallbacks with
  | None => fallback OnNotFound onNotFound request
  | Some collectionCallbacks =>
      let url := req_url request in
      let cursor := SearchParams.get "cursor" (searchParams url) in
      collection <-
        match cursor with
        | None =>
            firstCursor <-
              match CollectionCallbacks.firstCursor collectionCallbacks with
              | Some firstCursor =>
                  call (FirstCursorCalled (firstCursor handle))
                    (firstCursor handle)
              | None => ret None
              end ;;
            totalItems <-
              match CollectionCallbacks.counter collectionCallbacks with
              | Some counter => call CounterCalled (counter handle)
              | None => ret CUndefined
              end ;;
            match firstCursor with
            | None =>
                page <-
                  call (Dispatched None
                          (negb (isnull (CollectionCallbacks.dispatcher
                                           collectionCallbacks handle None
                                           filter))))
                    (CollectionCallbacks.dispatcher collectionCallbacks handle
                       None filter) ;;
                match page with
                | None => fallback OnNotFound onNotFound request
                | Some page =>
                    filtered <-
                      filterCollectionItems (items page) name filterPredicate ;;
                    ret (ECollection
                           {| oc_totalItems :=
                                if counter_null totalItems then None
                                else Some (Number totalItems);
                              oc_items := Some filtered;
                              oc_first := None;
                              oc_last := None |})
                end
            | Some firstCursor =>
                lastCursor <-
                  match CollectionCallbacks.lastCursor collectionCallbacks with
                  | Some lastCursor =>
                      call (LastCursorCalled (lastCursor handle))
                        (lastCursor handle)
                  | None => ret None
                  end ;;
                let first := url_with_param "cursor" firstCursor (context_url context) in
                let last :=
                  match lastCursor with
                  | Some lastCursor =>
                      Some (url_with_param "cursor" lastCursor (context_url context))
                  | None => None
                  end in
                ret (ECollection
                       {| oc_totalItems := Some (Number totalItems);
                          oc_items := None;
                          oc_first := Some first;
                          oc_last := last |})
            end
        | Some cursor =>
            page <-
              call (Dispatched (Some cursor)
                      (negb (isnull (CollectionCallbacks.dispatcher
                                       collectionCallbacks handle (Some cursor)
                                       filter))))
                (CollectionCallbacks.dispatcher collectionCallbacks handle
                   (Some cursor) filter) ;;
            match page with
            | None => fallback OnNotFound onNotFound request
            | Some page =>
                let prev :=
                  match prevCursor page with
                  | Some prevCursor =>
                      Some (url_with_param "cursor" prevCursor (context_url context))
                  | None => None
                  end in
                let next :=
                  match nextCursor page with
                  | Some nextCursor =>
                      Some (url_with_param "cursor" nextCursor (context_url context))
                  | None => None
                  end in
                let partOf := url_without_param "cursor" (context_url context) in
                filtered <-
                  filterCollectionItems (items page) name filterPredicate ;;
                ret (ECollectionPage
                       {| ocp_prev := prev;
                          ocp_next := next;
                          ocp_items := filtered;
                          ocp_partOf := partOf |})
            end
        end ;;
      acceptable <- call (Negotiated (acceptsJsonLd request))
                      (acceptsJsonLd request) ;;
      when (negb acceptable)
        (fallback OnNotAcceptable onNotAcceptable request) ;;
      match CollectionCallbacks.authorizePredicate collectionCallbacks with
      | Some authorizePredicate =>
          key <- call GetSignedKey (getSignedKey context) ;;
          keyOwner <- call GetSignedKeyOwner (getSignedKeyOwner context) ;;
          granted <- call (Authorized (authorizePredicate handle key keyOwner))
                       (authorizePredicate handle key keyOwner) ;;
          when (negb granted) (fallback OnUnauthorized onUnauthorized request)
      | None => ret tt
      end ;;
      jsonLd <- call (ToJsonLd collection) (JsonLd collection) ;;
      return_ {| status := 200;
                 headers := activity_json_headers_vary;
                 body := jsonLd |}
  end.

(** ** Object response helpers *)

Definition respondWithObject {St} (object : VObject) : Handler St :=
  jsonLd <- call (ToJsonLd (EObject object)) (JsonLd (EObject object)) ;;
  return_ {| status := 200;
             headers := [("Content-Type", "application/activity+json")];
             body := jsonLd |}.

(** Returns [Promise<Response | null>]. *)
Definition respondWithObjectIfAcceptable {St} `{Externals} (object : VObject)
    (request : Request) : Prog St (option Response) :=
  if negb (acceptsJsonLd request) then ret None
  else
    response <- await (respondWithObject object) ;;
    ret (Some {| status := status response;
                 headers := header_set "Vary" "Accept" (headers response);
                 body := body response |}).

(** ** Inbox pipeline *)

(** Modelled from the spec: the [KvStore] interface, whose implementation
    is not part of the handlers ([get(key)], [set(key, value, {ttl})], keys
    being arrays of strings, with read-after-write for the same key). The
    store is the state of the inbox program; expiry is not modelled, the
    time-to-live is recorded with the entry. *)
Record KvEntry := mkEntry {
  entry_value : Value;
  entry_ttl : Duration
}.

Abbreviation KvStore := (gmap KvKey KvEntry).

(** [await kv.get(key)] *)
Definition kv_get (key : KvKey) : Prog KvStore (option Value) :=
  fun kv => (Next (entry_value <$> kv !! key), kv,
             [KvGet key (entry_value <$> kv !! key)]).

(** [await kv.set(key, value, { ttl })] *)
Definition kv_set (key : KvKey) (value : Value) (ttl : Duration)
  : Prog KvStore unit :=
  fun kv => (Next tt, <[key := mkEntry value ttl]> kv, [KvSet key value ttl]).

(** A listener either returns ([None]) or throws. *)
Abbreviation InboxListener := (ActivityValue -> option Error).
Definition InboxErrorHandler := Error -> unit.

Module InboxHandlerParameters.
(** The [kv] of the source is the state the program runs on. *)
Record t := mk {
  handle : option string;
  context : RequestContext;
  kvPrefix : KvKey;
  actorDispatcher : option ActorDispatcher;
  inboxListeners : gmap Cls InboxListener;
  inboxErrorHandler : option InboxErrorHandler;
  onNotFound : Request -> Response;
  signatureTimeWindow : Duration
}.
End InboxHandlerParameters.

Definition text_plain : list (string * string) :=
  [("Content-Type", "text/plain; charset=utf-8")].

Definition newline : string := String (Ascii.ascii_of_nat 10) "".

Definition inbox_logger : list string := ["fedify"; "federation"; "inbox"].

(** [`${url}`] for a possibly null URL. *)
Definition template_url `{Externals} (u : option URL) : string :=
  match u with
  | Some u => href u
  | None => "null"
  end.

(** [await inboxErrorHandler?.(context, error)] *)
Definition handle_error {St} (inboxErrorHandler : option InboxErrorHandler)
    (error : Error) : Prog St unit :=
  match inboxErrorHandler with
  | Some _ => call (ErrorHandled error) tt
  | None => ret tt
  end.

(** [inboxListeners.has(cls)] *)
Definition has (inboxListeners : gmap Cls InboxListener) (cls : Cls) : bool :=
  negb (isnull (inboxListeners !! cls)).

(** The [while (true)] loop that looks for the nearest registered class,
    climbing with [Object.getPrototypeOf]. *)
Fixpoint listener_class {St} (inboxListeners : gmap Cls InboxListener)
    (cls : Cls) : Prog St Cls :=
  if has inboxListeners cls then ret cls
  else
    match cls with
    | Activity =>
        log inbox_logger LevelError
          ("Unsupported activity type:" ++ newline ++ "{activity}")%string ;;
        return_ {| status := 202; headers := text_plain; body := Text "" |}
    | Extends _ super => listener_class inboxListeners super
    end.

Definition handleInbox `{Externals} (request : Request)
    (parameters : InboxHandlerParameters.t) : Handler KvStore :=
  let '(InboxHandlerParameters.mk handle context kvPrefix actorDispatcher
          inboxListeners inboxErrorHandler onNotFound signatureTimeWindow) :=
    parameters in
  match actorDispatcher with
  | None =>
      log inbox_logger LevelError "Actor dispatcher is not set." ;;
      fallback OnNotFound onNotFound request
  | Some _ =>
      match handle with
      | Some handle =>
          actor <- call (GetActor handle (negb (isnull (getActor context handle))))
                     (getActor context handle) ;;
          when (isnull actor)
            (log inbox_logger LevelError "Actor {handle} not found." ;;
             fallback OnNotFound onNotFound request)
      | None => ret tt
      end
  end ;;
  json <-
    match request_json request with
    | inr json => call (JsonRead true) json
    | inl error =>
        call (JsonRead false) tt ;;
        log inbox_logger LevelError
          ("Failed to parse JSON:" ++ newline ++ "{error}")%string ;;
        handle_error inboxErrorHandler error ;;
        return_ {| status := 400; headers := text_plain;
                   body := Text "Invalid JSON." |}
    end ;;
  activity <-
    match verifyObject json with
    | inr activity =>
        call (ObjectVerified (inr (negb (isnull activity)))) activity
    | inl error =>
        call (ObjectVerified (inl error)) tt ;;
        log inbox_logger LevelError
          ("Failed to parse activity:" ++ newline ++ "{error}")%string ;;
        handle_error inboxErrorHandler error ;;
        return_ {| status := 400; headers := text_plain;
                   body := Text "Invalid activity." |}
    end ;;
  verified <-
    match activity with
    | None =>
        key <- call (RequestVerified
                       (negb (isnull (verifyRequest request signatureTimeWindow))))
                 (verifyRequest request signatureTimeWindow) ;;
        match key with
        | None =>
            log inbox_logger LevelError
              "Failed to verify the request signature." ;;
            return_ {| status := 401; headers := text_plain;
                       body := Text "Failed to verify the request signature." |}
        | Some key =>
            activity <-
              match fromJsonLd json with
              | inr activity => call (Deserialized true) activity
              | inl error => call (Deserialized false) tt ;; throw error
              end ;;
            ret (Some key, activity)
        end
    | Some activity => ret (None, activity)
    end ;;
  let '(httpSigKey, activity) := verified in
  let cacheKey :=
    match activity_id activity with
    | None => None
    | Some id => Some (kvPrefix ++ [href id])
    end in
  match cacheKey with
  | Some cacheKey =>
      cached <- kv_get cacheKey ;;
      when (strictly_true cached)
        (log inbox_logger LevelDebug
           "Activity {activityId} has already been processed." ;;
         return_ {| status := 202; headers := text_plain;
                    body := Text ("Activity <"
                                  ++ template_url (activity_id activity)
                                  ++ "> has already been processed.")%string |})
  | None => ret tt
  end ;;
  when (isnull (activity_actorId activity))
    (log inbox_logger LevelError "Missing actor." ;;
     return_ {| status := 400; headers := text_plain;
                body := Text "Missing actor." |}) ;;
  match httpSigKey with
  | Some httpSigKey =>
      owns <- call (OwnershipChecked (doesActorOwnKey activity httpSigKey))
                (doesActorOwnKey activity httpSigKey) ;;
      when (negb owns)
        (log inbox_logger LevelError
           "The signer ({keyId}) and the actor ({actorId}) do not match." ;;
         return_ {| status := 401; headers := text_plain;
                    body := Text "The signer and the actor do not match." |})
  | None => ret tt
  end ;;
  cls <- listener_class inboxListeners (constructor activity) ;;
  match inboxListeners !! cls with
  | None => throw "TypeError: listener is not a function"
  | Some listener =>
      match listener activity with
      | None => call (ListenerCalled cls activity false) tt
      | Some error =>
          call (ListenerCalled cls activity true) tt ;;
          log inbox_logger LevelError
            ("Failed to process the activity:" ++ newline ++ "{error}")%string ;;
          handle_error inboxErrorHandler error ;;
          return_ {| status := 500; headers := text_plain;
                     body := Text "Internal server error." |}
      end
  end ;;
  match cacheKey with
  | Some cacheKey => kv_set cacheKey (VBool true) one_day
  | None => ret tt
  end ;;
  log inbox_logger LevelInfo "Activity {activityId} has been processed." ;;
  return_ {| status := 202; headers := text_plain; body := Text "" |}.

(** * Vocabulary of the properties *)

(** ** Traces *)

Definition occurs (P : Event -> bool) (t : list Event) : bool := existsb P t.

(** Every [Q]-event of the trace has a [P]-event strictly before it. *)
Definition preceded_by (P Q : Event -> bool) (t : list Event) : Prop :=
  forall t1 e t2, t = t1 ++ e :: t2 -> Q e = true -> occurs P t1 = true.

(** No [R]-event comes after a [Q]-event. *)
Definition never_followed_by (Q R : Event -> bool) (t : list Event) : Prop :=
  forall t1 e t2, t = t1 ++ e :: t2 -> Q e = true -> occurs R t2 = false.

(** Decision procedures for the two orderings. *)
Fixpoint preceded_by_b (P Q : Event -> bool) (seen : bool) (t : list Event)
  : bool :=
  match t with
  | [] => true
  | e :: t' =>
      (if Q e then seen else true) && preceded_by_b P Q (seen || P e) t'
  end.

Fixpoint never_followed_by_b (Q R : Event -> bool) (t : list Event) : bool :=
  match t with
  | [] => true
  | e :: t' =>
      (if Q e then negb (occurs R t') else true) && never_followed_by_b Q R t'
  end.

Definition is_log (e : Event) : bool :=
  match e with Logged _ _ _ => true | _ => false end.
Definition is_fallback (e : Event) : bool :=
  match e with
  | OnNotFound | OnNotAcceptable | OnUnauthorized => true
  | _ => false
  end.
Definition is_negotiation (e : Event) : bool :=
  match e with Negotiated _ => true | _ => false end.
Definition is_authorization (e : Event) : bool :=
  match e with Authorized _ => true | _ => false end.
Definition is_dispatch (e : Event) : bool :=
  match e with Dispatched _ _ => true | _ => false end.
(** Calls of [counter], [firstCursor] and [lastCursor]. *)
Definition is_summary_callback (e : Event) : bool :=
  match e with
  | FirstCursorCalled _ | CounterCalled | LastCursorCalled _ => true
  | _ => false
  end.
(** Calls of a member of the [CollectionCallbacks] bundle. *)
Definition is_collection_callback (e : Event) : bool :=
  is_dispatch e || is_summary_callback e || is_authorization e.
Definition is_proof_verified (e : Event) : bool :=
  match e with ObjectVerified (inr true) => true | _ => false end.
Definition is_signature_verified (e : Event) : bool :=
  match e with RequestVerified true => true | _ => false end.
Definition is_verified (e : Event) : bool :=
  is_proof_verified e || is_signature_verified e.
Definition is_ownership_check (e : Event) : bool :=
  match e with OwnershipChecked _ => true | _ => false end.
Definition is_ownership_confirmed (e : Event) : bool :=
  match e with OwnershipChecked true => true | _ => false end.
Definition is_ownership_denied (e : Event) : bool :=
  match e with OwnershipChecked false => true | _ => false end.
Definition is_store_query (e : Event) : bool :=
  match e with KvGet _ _ => true | _ => false end.
Definition is_commit (e : Event) : bool :=
  match e with KvSet _ _ _ => true | _ => false end.
Definition is_listener_call (e : Event) : bool :=
  match e with ListenerCalled _ _ _ => true | _ => false end.

(** A listener call for an activity that has an id. *)
Definition is_identified_listener_call (e : Event) : bool :=
  match e with
  | ListenerCalled _ activity _ => negb (isnull (activity_id activity))
  | _ => false
  end.

Definition is_listener_failure (e : Event) : bool :=
  match e with ListenerCalled _ _ true => true | _ => false end.

(** ** Responses *)

Definition emits_activity_json (response : Response) : Prop :=
  header "Content-Type" (headers response) = Some "application/activity+json".

Definition emits_text_plain (response : Response) : Prop :=
  header "Content-Type" (headers response) = Some "text/plain; charset=utf-8".

(** ** Responders *)

(** The 404 / 406 / 401 precedence of a responder's run: [missing] says
    that there is no dispatcher or that it answered [null], [acceptable]
    that the request negotiates JSON-LD, [denied] that an authorization
    predicate is configured and answers [false]. *)
Definition precedence {St} (r : Run St)
    (notFound notAcceptable unauthorized : Response)
    (missing acceptable denied : Prop) : Prop :=
  (missing ->
     outcome r = Responded notFound
     /\ occurs is_negotiation (trace r) = false
     /\ occurs is_authorization (trace r) = false)
  /\ (~ missing -> ~ acceptable ->
      outcome r = Responded notAcceptable
      /\ occurs is_authorization (trace r) = false)
  /\ (~ missing -> acceptable -> denied ->
      outcome r = Responded unauthorized).

(** What the collection dispatcher answers to this request, or [None] when
    the request does not consult it (a summary that offers cursoring). *)
Definition requested_page (request : Request)
    (p : CollectionHandlerParameters.t) (cb : CollectionCallbacks.t)
  : option (option Page) :=
  let handle := CollectionHandlerParameters.handle p in
  let filter := CollectionHandlerParameters.filter p in
  match SearchParams.get "cursor" (searchParams (req_url request)) with
  | Some cursor =>
      Some (CollectionCallbacks.dispatcher cb handle (Some cursor) filter)
  | None =>
      match
        match CollectionCallbacks.firstCursor cb with
        | Some firstCursor => firstCursor handle
        | None => None
        end
      with
      | None => Some (CollectionCallbacks.dispatcher cb handle None filter)
      | Some _ => None
      end
  end.

(** The authorization predicate of a collection, when configured, grants
    the request. *)
Definition collection_authorized (p : CollectionHandlerParameters.t)
    (cb : CollectionCallbacks.t) : Prop :=
  forall authorize,
    CollectionCallbacks.authorizePredicate cb = Some authorize ->
    authorize (CollectionHandlerParameters.handle p)
      (getSignedKey (CollectionHandlerParameters.context p))
      (getSignedKeyOwner (CollectionHandlerParameters.context p)) = true.

Definition ok_json (e : Entity) : Response :=
  {| status := 200; headers := activity_json_headers_vary; body := JsonLd e |}.

(** ** Item projection *)

(** The items of the emitted collection, as a list function. *)
Definition projected (filterPredicate : option (Item -> bool))
    (items : list Item) : list Mapped :=
  omap (fun item => if filtered_out filterPredicate item then None
                    else mapItem item) items.

(** An item that the filter predicate, not the projection, removes. *)
Definition omitted (filterPredicate : option (Item -> bool)) (item : Item)
  : bool :=
  negb (isnull (mapItem item)) && filtered_out filterPredicate item.

Definition filtering_trace (collectionName : string)
    (filterPredicate : option (Item -> bool)) (logged : bool)
    (items : list Item) : list Event :=
  if negb logged && existsb (omitted filterPredicate) items
  then [Logged ["fedify"; "federation"; "collection"] LevelWarning
          (filtering_warning collectionName)]
  else [].

(** ** Inbox *)

(** The classes the walk visits: the class itself, then its ancestors up to
    [Activity]. *)
Fixpoint class_chain (cls : Cls) : list Cls :=
  cls :: match cls with
         | Activity => []
         | Extends _ super => class_chain super
         end.

(** First hit along the chain. *)
Definition nearest_registered (inboxListeners : gmap Cls InboxListener)
    (cls : Cls) : option Cls :=
  find (has inboxListeners) (class_chain cls).

Definition unsupported_trace : list Event :=
  [Logged inbox_logger LevelError
     ("Unsupported activity type:" ++ newline ++ "{activity}")%string].

Definition accepted_empty : Response :=
  {| status := 202; headers := text_plain; body := Text "" |}.

Definition already_processed (iri : string) : Response :=
  {| status := 202; headers := text_plain;
     body := Text ("Activity <" ++ iri ++ "> has already been processed.")%string |}.

Definition signer_mismatch : Response :=
  {| status := 401; headers := text_plain;
     body := Text "The signer and the actor do not match." |}.

(** Stages 1 to 4 of the pipeline: the activity a delivery carries, with
    the key of its HTTP signature when no embedded proof verified it;
    [None] when one of these stages ends the request. *)
Definition delivered `{Externals} (request : Request)
    (p : InboxHandlerParameters.t)
  : option (option CryptographicKey * ActivityValue) :=
  match InboxHandlerParameters.actorDispatcher p with
  | None => None
  | Some _ =>
      if match InboxHandlerParameters.handle p with
         | Some handle =>
             isnull (getActor (InboxHandlerParameters.context p) handle)
         | None => false
         end
      then None
      else
        match request_json request with
        | inl _ => None
        | inr json =>
            match verifyObject json with
            | inl _ => None
            | inr (Some activity) => Some (None, activity)
            | inr None =>
                match verifyRequest request
                        (InboxHandlerParameters.signatureTimeWindow p) with
                | None => None
                | Some key =>
                    match fromJsonLd json with
                    | inl _ => None
                    | inr activity => Some (Some key, activity)
                    end
                end
            end
        end
  end.

(** The idempotency key of an activity: the prefix followed by the [href]
    of its [id]. *)
Definition idempotency_key `{Externals} (kvPrefix : KvKey)
    (activity : ActivityValue) : option KvKey :=
  match activity_id activity with
  | Some id => Some (kvPrefix ++ [href id])
  | None => None
  end.

(** What the store answers at the idempotency key of the activity. *)
Definition cached `{Externals} (kvPrefix : KvKey) (kv : KvStore)
    (activity : ActivityValue) : option Value :=
  match idempotency_key kvPrefix activity with
  | Some key => entry_value <$> kv !! key
  | None => None
  end.

(** The delivery passes stages 1 to 7 and reaches listener resolution. *)
Definition reaches_dispatch `{Externals} (request : Request)
    (p : InboxHandlerParameters.t) (kv : KvStore)
    (key : option CryptographicKey) (activity : ActivityValue) : Prop :=
  delivered request p = Some (key, activity)
  /\ strictly_true (cached (InboxHandlerParameters.kvPrefix p) kv activity)
     = false
  /\ activity_actorId activity <> None
  /\ (forall k, key = Some k -> doesActorOwnKey activity k = true).

(** ** Further vocabulary: stages and responses of the inbox *)

Definition is_actor_lookup (e : Event) : bool :=
  match e with GetActor _ _ => true | _ => false end.
Definition is_body_read (e : Event) : bool :=
  match e with JsonRead _ => true | _ => false end.
Definition is_error_report (e : Event) : bool :=
  match e with ErrorHandled _ => true | _ => false end.
Definition is_proof_check (e : Event) : bool :=
  match e with ObjectVerified _ => true | _ => false end.
Definition is_signature_check (e : Event) : bool :=
  match e with RequestVerified _ => true | _ => false end.
Definition is_deserialization (e : Event) : bool :=
  match e with Deserialized _ => true | _ => false end.
Definition is_store_access (e : Event) : bool :=
  is_store_query e || is_commit e.
Definition is_key_lookup (e : Event) : bool :=
  match e with GetSignedKey | GetSignedKeyOwner => true | _ => false end.
Definition is_negotiation_success (e : Event) : bool :=
  match e with Negotiated true => true | _ => false end.
Definition is_serialization (e : Event) : bool :=
  match e with ToJsonLd _ => true | _ => false end.
Definition is_warning (e : Event) : bool :=
  match e with Logged _ LevelWarning _ => true | _ => false end.
(** Calls of the callbacks that produce the data of a collection. *)
Definition is_collection_data_callback (e : Event) : bool :=
  is_dispatch e || is_summary_callback e.

(** The position of a collaborator of the inbox in the pipeline. *)
Definition stage (e : Event) : option nat :=
  match e with
  | GetActor _ _ => Some 0%nat
  | JsonRead _ => Some 1%nat
  | ObjectVerified _ => Some 2%nat
  | RequestVerified _ => Some 3%nat
  | Deserialized _ => Some 4%nat
  | KvGet _ _ => Some 5%nat
  | OwnershipChecked _ => Some 6%nat
  | ListenerCalled _ _ _ => Some 7%nat
  | KvSet _ _ _ => Some 8%nat
  | ErrorHandled _ => Some 9%nat
  | _ => None
  end.

Definition invalid_json : Response :=
  {| status := 400; headers := text_plain; body := Text "Invalid JSON." |}.
Definition invalid_activity : Response :=
  {| status := 400; headers := text_plain; body := Text "Invalid activity." |}.
Definition unverified_signature : Response :=
  {| status := 401; headers := text_plain;
     body := Text "Failed to verify the request signature." |}.
Definition missing_actor : Response :=
  {| status := 400; headers := text_plain; body := Text "Missing actor." |}.
Definition internal_error : Response :=
  {| status := 500; headers := text_plain;
     body := Text "Internal server error." |}.

(** The responses with a fixed body that the inbox builds. *)
Definition inbox_responses : list Response :=
  [invalid_json; invalid_activity; unverified_signature; missing_actor;
   signer_mismatch; internal_error; accepted_empty].

(** Stage 1 passes: an actor dispatcher is configured and, for a personal
    inbox, the handle resolves to an actor. *)
Definition recipient_known (p : InboxHandlerParameters.t) : bool :=
  negb (isnull (InboxHandlerParameters.actorDispatcher p))
  && match InboxHandlerParameters.handle p with
     | Some handle =>
         negb (isnull (getActor (InboxHandlerParameters.context p) handle))
     | None => true
     end.

(** What [await inboxErrorHandler?.(context, error)] adds to the trace. *)
Definition error_reports (inboxErrorHandler : option InboxErrorHandler)
    (error : Error) : list Event :=
  match inboxErrorHandler with
  | Some _ => [ErrorHandled error]
  | None => []
  end.

(** The links that are present among two optional ones. *)
Definition present {A} (o : option A) : list A :=
  match o with
  | Some a => [a]
  | None => []
  end.

(** The URLs a collection response links to: [first] and [last] of a
    collection, [prev] and [next] of a page. *)
Definition links (e : Entity) : list URL :=
  match e with
  | ECollection c => present (oc_first c) ++ present (oc_last c)
  | ECollectionPage page => present (ocp_prev page) ++ present (ocp_next page)
  | _ => []
  end.

(** An item that the projection keeps (it is an object, a link or a URL,
    or it has an id). *)
Definition projects (item : Item) : bool := negb (isnull (mapItem item)).

(** * Test doubles and scenarios *)

Module Demo.

Definition iri (s : string) : URL := mkURL s [] "".

(** A serializer for URLs whose parts need no escaping. *)
Fixpoint query (ps : list (string * string)) : string :=
  match ps with
  | [] => ""
  | (n, v) :: rest =>
      (n ++ "=" ++ v ++ match rest with [] => "" | _ => "&" ++ query rest end)%string
  end.

Definition serialize (u : URL) : string :=
  (url_base u
   ++ match searchParams u with [] => "" | ps => "?" ++ query ps end
   ++ url_hash u)%string.

Definition Create : Cls := Extends "Create" Activity.
Definition Announce : Cls := Extends "Announce" Activity.

Definition bob : URL := iri "https://e/@bob".
Definition bob_key : string := "https://e/@bob#main-key".
Definition mallory_key : string := "https://evil/@mallory#main-key".

Definition create (n : string) : ActivityValue :=
  mkActivity Create (Some (iri ("https://e/a/" ++ n))) (Some bob).
Definition announce (n : string) : ActivityValue :=
  mkActivity Announce (Some (iri ("https://e/a/" ++ n))) (Some bob).

(** Doubles for the imported collaborators: an [Accept] header names one
    media type and a request without one accepts the wildcard, as the
    negotiation library has it; the body names the activity it carries,
    the [Signature] header names the signing key. *)
Definition externals : Externals := {|
  accepts r :=
    match accept_header r with
    | Some a => if String.eqb a "" then Some ["*/*"] else Some [a]
    | None => Some ["*/*"]
    end;
  href := serialize;
  request_json r :=
    if String.eqb (req_body r) "" then inl "SyntaxError"
    else inr (JsonDocument (req_body r));
  verifyObject j :=
    let 'JsonDocument text := j in
    if String.eqb text "proof:create-1" then inr (Some (create "1"))
    else if String.eqb text "proof:malformed" then inl "TypeError"
    else inr None;
  verifyRequest r w := mkKey <$> header "Signature" (req_headers r);
  fromJsonLd j :=
    let 'JsonDocument text := j in
    if String.eqb text "create-1" then inr (create "1")
    else if String.eqb text "create-2" then inr (create "2")
    else if String.eqb text "announce-3" then inr (announce "3")
    else inl "TypeError";
  doesActorOwnKey a k :=
    let 'mkKey key := k in String.eqb key bob_key
|}.

Definition context (u : URL) : RequestContext := {|
  context_url := u;
  getActor h := if String.eqb h "alice"
                then Some (mkActor "https://h/users/alice") else None;
  getSignedKey := None;
  getSignedKeyOwner := None
|}.

Definition not_found : Response :=
  {| status := 404; headers := []; body := Text "Not Found" |}.
Definition not_acceptable : Response :=
  {| status := 406; headers := []; body := Text "Not Acceptable" |}.
Definition unauthorized : Response :=
  {| status := 401; headers := []; body := Text "Unauthorized" |}.

(** *** Inbox scenarios *)

Definition inbox_url : URL := iri "https://h/users/alice/inbox".

Definition signed_post (signer body : string) : Request :=
  {| req_url := inbox_url;
     req_headers := [("Signature", signer)];
     req_body := body |}.

Definition unsigned_post (body : string) : Request :=
  {| req_url := inbox_url; req_headers := []; req_body := body |}.

Definition prefix : KvKey := ["_fedify"; "activityIdempotence"].

Definition inbox (listeners : gmap Cls InboxListener)
  : InboxHandlerParameters.t := {|
  InboxHandlerParameters.handle := Some "alice";
  InboxHandlerParameters.context := context inbox_url;
  InboxHandlerParameters.kvPrefix := prefix;
  InboxHandlerParameters.actorDispatcher := Some (getActor (context inbox_url));
  InboxHandlerParameters.inboxListeners := listeners;
  InboxHandlerParameters.inboxErrorHandler := None;
  InboxHandlerParameters.onNotFound := fun _ => not_found;
  InboxHandlerParameters.signatureTimeWindow :=
    {| days := 0; hours := 0; minutes := 1; seconds := 0 |}
|}.

Definition on_create : gmap Cls InboxListener := {[ Create := fun _ => None ]}.
Definition on_activity : gmap Cls InboxListener := {[ Activity := fun _ => None ]}.
Definition failing_create : gmap Cls InboxListener :=
  {[ Create := fun _ => Some "listener failed" ]}.

Definition key_of (n : string) : KvKey :=
  prefix ++ ["https://e/a/" ++ n]%string.

(** A store that answers the number 1, a truthy value that is not
    [true], at the key of activity 2. *)
Definition store_with_one : KvStore :=
  {[ key_of "2" := mkEntry (VNumber (Num 1)) one_day ]}.

Definition store_with_true : KvStore :=
  {[ key_of "2" := mkEntry (VBool true) one_day ]}.

(** *** Responder scenarios *)

Definition get (u : URL) (accept : option string) : Request :=
  {| req_url := u;
     req_headers := match accept with
                    | Some a => [("Accept", a)]
                    | None => []
                    end;
     req_body := "" |}.

(** A request of a federation peer. *)
Definition fetch (u : URL) : Request :=
  get u (Some "application/activity+json").

Definition actor (dispatcher : option ActorDispatcher)
    (authorize : option AuthorizePredicate) (handle : string)
  : ActorHandlerParameters.t := {|
  ActorHandlerParameters.handle := handle;
  ActorHandlerParameters.context := context (iri "https://h/users/alice");
  ActorHandlerParameters.actorDispatcher := dispatcher;
  ActorHandlerParameters.authorizePredicate := authorize;
  ActorHandlerParameters.onUnauthorized := fun _ => unauthorized;
  ActorHandlerParameters.onNotFound := fun _ => not_found;
  ActorHandlerParameters.onNotAcceptable := fun _ => not_acceptable
|}.

Definition object (dispatcher : option ObjectDispatcher)
    (authorize : option ObjectAuthorizePredicate)
  : ObjectHandlerParameters.t := {|
  ObjectHandlerParameters.values := {[ "id" := "1" ]};
  ObjectHandlerParameters.context := context (iri "https://h/notes/1");
  ObjectHandlerParameters.objectDispatcher := dispatcher;
  ObjectHandlerParameters.authorizePredicate := authorize;
  ObjectHandlerParameters.onUnauthorized := fun _ => unauthorized;
  ObjectHandlerParameters.onNotFound := fun _ => not_found;
  ObjectHandlerParameters.onNotAcceptable := fun _ => not_acceptable
|}.

Definition u1 : URL := iri "https://e/u1".

Definition page5 : Page :=
  {| items := [ItemURL u1];
     prevCursor := Some "p4";
     nextCursor := Some "p6" |}.

Definition paged (counter : option CollectionCounter)
    (authorize : option AuthorizePredicate) : CollectionCallbacks.t := {|
  CollectionCallbacks.dispatcher h cursor f :=
    match cursor with
    | Some c => if String.eqb c "p5" then Some page5 else None
    | None => None
    end;
  CollectionCallbacks.counter := counter;
  CollectionCallbacks.firstCursor := Some (fun _ => Some "c0");
  CollectionCallbacks.lastCursor := Some (fun _ => Some "c9");
  CollectionCallbacks.authorizePredicate := authorize
|}.

Definition collection (u : URL) (callbacks : option CollectionCallbacks.t)
  : CollectionHandlerParameters.t := {|
  CollectionHandlerParameters.name := "outbox";
  CollectionHandlerParameters.handle := "alice";
  CollectionHandlerParameters.filter := None;
  CollectionHandlerParameters.filterPredicate := None;
  CollectionHandlerParameters.context := context u;
  CollectionHandlerParameters.collectionCallbacks := callbacks;
  CollectionHandlerParameters.onUnauthorized := fun _ => unauthorized;
  CollectionHandlerParameters.onNotFound := fun _ => not_found;
  CollectionHandlerParameters.onNotAcceptable := fun _ => not_acceptable
|}.

Definition summary_url : URL := mkURL "https://h/x" [("a", "1")] "".
Definition page_url : URL := mkURL "https://h/x" [("cursor", "p5")] "".

(** *** Further doubles *)

(** As [externals], with two more bodies for the deserializer: an activity
    without id and an activity without actor. *)
Definition lenient : Externals := {|
  accepts := @accepts externals;
  href := @href externals;
  request_json := @request_json externals;
  verifyObject := @verifyObject externals;
  verifyRequest := @verifyRequest externals;
  fromJsonLd j :=
    let 'JsonDocument text := j in
    if String.eqb text "anonymous" then inr (mkActivity Create None (Some bob))
    else if String.eqb text "actorless"
         then inr (mkActivity Create (Some (iri "https://e/a/9")) None)
         else @fromJsonLd externals j;
  doesActorOwnKey := @doesActorOwnKey externals
|}.

Definition reporting (listeners : gmap Cls InboxListener)
  : InboxHandlerParameters.t := {|
  InboxHandlerParameters.handle := Some "alice";
  InboxHandlerParameters.context := context inbox_url;
  InboxHandlerParameters.kvPrefix := prefix;
  InboxHandlerParameters.actorDispatcher := Some (getActor (context inbox_url));
  InboxHandlerParameters.inboxListeners := listeners;
  InboxHandlerParameters.inboxErrorHandler := Some (fun _ => tt);
  InboxHandlerParameters.onNotFound := fun _ => not_found;
  InboxHandlerParameters.signatureTimeWindow :=
    {| days := 0; hours := 0; minutes := 1; seconds := 0 |}
|}.

Definition shared_inbox (dispatcher : option ActorDispatcher)
    (listeners : gmap Cls InboxListener) : InboxHandlerParameters.t := {|
  InboxHandlerParameters.handle := None;
  InboxHandlerParameters.context := context (iri "https://h/inbox");
  InboxHandlerParameters.kvPrefix := prefix;
  InboxHandlerParameters.actorDispatcher := dispatcher;
  InboxHandlerParameters.inboxListeners := listeners;
  InboxHandlerParameters.inboxErrorHandler := None;
  InboxHandlerParameters.onNotFound := fun _ => not_found;
  InboxHandlerParameters.signatureTimeWindow :=
    {| days := 0; hours := 0; minutes := 1; seconds := 0 |}
|}.

Definition alice : Actor := mkActor "https://h/users/alice".
Definition note : VObject := mkObject "https://h/notes/1".

(** A collection without cursors: the dispatcher answers the whole
    collection to the null cursor. *)
Definition inline (counter : option CollectionCounter)
    (items : list Item) : CollectionCallbacks.t := {|
  CollectionCallbacks.dispatcher h cursor f :=
    match cursor with
    | None => Some {| items := items; prevCursor := None; nextCursor := None |}
    | Some _ => None
    end;
  CollectionCallbacks.counter := counter;
  CollectionCallbacks.firstCursor := None;
  CollectionCallbacks.lastCursor := Some (fun _ => Some "c9");
  CollectionCallbacks.authorizePredicate := None
|}.

Definition mixed_items : list Item :=
  [ItemURL u1; ItemRecipient None; ItemObject note;
   ItemRecipient (Some (iri "https://e/@bob")); ItemLink (mkLink "https://e/l")].

Definition only_urls (item : Item) : bool :=
  match item with ItemURL _ => true | _ => false end.

End Demo.

(** * Lemmas on traces, URLs and the two loops *)

Lemma occurs_app P t1 t2 : occurs P (t1 ++ t2) = occurs P t1 || occurs P t2.
Proof. apply existsb_app. Qed.

Lemma preceded_by_b_sound P Q t :
  preceded_by_b P Q false t = true -> preceded_by P Q t.
Proof.
  assert (G : forall t seen, preceded_by_b P Q seen t = true ->
            forall t1 e t2, t = t1 ++ e :: t2 -> Q e = true ->
            seen || occurs P t1 = true).
  { clear t. induction t as [|x t IH]; intros seen Hb t1 e t2 Heq HQ.
    - by destruct t1.
    - simpl in Hb. apply andb_prop in Hb as [Hx Hrest].
      destruct t1 as [|y t1]; simpl in Heq; injection Heq as -> ->.
      + rewrite HQ in Hx. by rewrite Hx.
      + specialize (IH _ Hrest _ _ _ eq_refl HQ). simpl.
        by rewrite orb_assoc. }
  intros Hb t1 e t2 Heq HQ. exact (G t false Hb t1 e t2 Heq HQ).
Qed.

Lemma never_followed_by_b_sound Q R t :
  never_followed_by_b Q R t = true -> never_followed_by Q R t.
Proof.
  induction t as [|x t IH]; intros Hb t1 e t2 Heq HQ.
  - by destruct t1.
  - simpl in Hb. apply andb_prop in Hb as [Hx Hrest].
    destruct t1 as [|y t1]; simpl in Heq; injection Heq as -> ->.
    + rewrite HQ in Hx. by apply negb_true_iff in Hx.
    + exact (IH Hrest _ _ _ eq_refl HQ).
Qed.

Lemma occurs_elem_of P e t : e ∈ t -> P e = true -> occurs P t = true.
Proof.
  intros Hin HP. apply existsb_exists. exists e.
  split; [by apply list_elem_of_In | done].
Qed.

Lemma includes_elem_of x xs : includes x xs = true <-> x ∈ xs.
Proof.
  unfold includes. rewrite existsb_exists. split.
  - intros (y & Hin & Heq). apply String.eqb_eq in Heq as ->.
    by apply list_elem_of_In.
  - intros Hin. exists x. split; [by apply list_elem_of_In |].
    apply String.eqb_refl.
Qed.

(** ** Search parameters *)

Lemma get_delete_eq name ps :
  SearchParams.get name (SearchParams.delete name ps) = None.
Proof.
  induction ps as [|[n v] ps IH]; simpl; [done|].
  destruct (String.eqb n name) eqn:E; simpl; [done | by rewrite E].
Qed.

Lemma get_delete_ne name other ps :
  other <> name ->
  SearchParams.get other (SearchParams.delete name ps)
  = SearchParams.get other ps.
Proof.
  intros Hne. induction ps as [|[n v] ps IH]; simpl; [done|].
  destruct (String.eqb n name) eqn:E; simpl.
  - apply String.eqb_eq in E as ->.
    destruct (String.eqb name other) eqn:E'; [|done].
    apply String.eqb_eq in E'. congruence.
  - by rewrite IH.
Qed.

Lemma get_set_eq name value ps :
  SearchParams.get name (SearchParams.set name value ps) = Some value.
Proof.
  induction ps as [|[n v] ps IH]; simpl.
  - by rewrite String.eqb_refl.
  - destruct (String.eqb n name) eqn:E; simpl; by rewrite E.
Qed.

Lemma get_set_ne name other value ps :
  other <> name ->
  SearchParams.get other (SearchParams.set name value ps)
  = SearchParams.get other ps.
Proof.
  intros Hne. induction ps as [|[n v] ps IH]; simpl.
  - destruct (String.eqb name other) eqn:E; [|done].
    apply String.eqb_eq in E. congruence.
  - destruct (String.eqb n name) eqn:E; simpl.
    + apply String.eqb_eq in E as ->.
      destruct (String.eqb name other) eqn:E'.
      * apply String.eqb_eq in E'. congruence.
      * by apply get_delete_ne.
    + by rewrite IH.
Qed.

(** After [set], exactly one pair carries the name. *)
Lemma set_single name value ps :
  length (List.filter (fun nv => String.eqb (fst nv) name)
            (SearchParams.set name value ps)) = 1%nat.
Proof.
  assert (D : forall qs, List.filter (fun nv => String.eqb (fst nv) name)
                           (SearchParams.delete name qs) = []).
  { induction qs as [|[n v] qs IH]; simpl; [done|].
    destruct (String.eqb n name) eqn:E; simpl; [done | by rewrite E]. }
  induction ps as [|[n v] ps IH]; simpl.
  - by rewrite String.eqb_refl.
  - destruct (String.eqb n name) eqn:E; simpl; rewrite E; [|done].
    by rewrite D.
Qed.

(** ** The item projector *)

Lemma filterCollectionItems_loop_run {St} items name fp logged result (s : St) :
  filterCollectionItems_loop items name fp logged result s
  = (Next (result ++ projected fp items), s,
     filtering_trace name fp logged items).
Proof.
  revert logged result.
  induction items as [|item rest IH]; intros logged result.
  - unfold filtering_trace. simpl. rewrite app_nil_r, andb_false_r. done.
  - simpl. unfold projected, filtering_trace in *. simpl.
    unfold omitted at 1.
    destruct (mapItem item) as [m|] eqn:Hm; simpl.
    + destruct (filtered_out fp item) eqn:Hf; simpl.
      * unfold bind. destruct logged; simpl.
        -- unfold ret. rewrite IH. simpl. done.
        -- unfold log, call. rewrite IH. simpl. done.
      * rewrite IH. rewrite <- app_assoc. simpl. done.
    + rewrite IH. destruct (filtered_out fp item); done.
Qed.

Lemma filterCollectionItems_run {St} items name fp (s : St) :
  filterCollectionItems items name fp s
  = (Next (projected fp items), s, filtering_trace name fp false items).
Proof. apply (filterCollectionItems_loop_run items name fp false [] s). Qed.

Lemma filtering_trace_occurs name fp logged items P :
  (forall c l m, P (Logged c l m) = false) ->
  occurs P (filtering_trace name fp logged items) = false.
Proof.
  intros HP. unfold filtering_trace.
  destruct (negb logged && existsb (omitted fp) items); simpl; [|done].
  by rewrite HP.
Qed.

(** At most one warning per response. *)
Lemma filtering_trace_length name fp logged items :
  (length (filtering_trace name fp logged items) <= 1)%nat.
Proof.
  unfold filtering_trace.
  destruct (negb logged && existsb (omitted fp) items); simpl; lia.
Qed.

Lemma filtering_trace_elem_of name fp logged items e :
  e ∈ filtering_trace name fp logged items -> is_log e = true.
Proof.
  unfold filtering_trace.
  destruct (negb logged && existsb (omitted fp) items); intros Hin.
  - apply list_elem_of_singleton in Hin as ->. done.
  - by apply elem_of_nil in Hin.
Qed.

(** ** The listener walk *)

Lemma listener_class_run {St} (inboxListeners : gmap Cls InboxListener) cls
    (s : St) :
  listener_class inboxListeners cls s =
  match nearest_registered inboxListeners cls with
  | Some hit => (Next hit, s, [])
  | None => (Return accepted_empty, s, unsupported_trace)
  end.
Proof.
  unfold nearest_registered.
  induction cls as [|n super IH]; simpl.
  - destruct (has inboxListeners Activity); reflexivity.
  - destruct (has inboxListeners (Extends n super)); [reflexivity | exact IH].
Qed.

Lemma nearest_registered_has (inboxListeners : gmap Cls InboxListener) cls hit :
  nearest_registered inboxListeners cls = Some hit ->
  exists listener, inboxListeners !! hit = Some listener.
Proof.
  unfold nearest_registered. intros Hf. apply find_some in Hf as [_ Hh].
  unfold has in Hh. destruct (inboxListeners !! hit); [eauto | done].
Qed.

(** The walk starts at the class, ends at [Activity], and each class is
    followed by the class it extends. *)
Lemma class_chain_head cls : head (class_chain cls) = Some cls.
Proof. by destruct cls. Qed.

Lemma class_chain_last cls : last (class_chain cls) = Some Activity.
Proof.
  induction cls as [|n super IH]; [done|].
  simpl. destruct (class_chain super) eqn:E; [by destruct super | exact IH].
Qed.

(** First hit wins: the hit is registered and no class before it in the
    chain is. *)
Lemma nearest_registered_first (inboxListeners : gmap Cls InboxListener)
    cls hit :
  nearest_registered inboxListeners cls = Some hit <->
  exists before after,
    class_chain cls = before ++ hit :: after
    /\ is_Some (inboxListeners !! hit)
    /\ forall c, c ∈ before -> inboxListeners !! c = None.
Proof.
  unfold nearest_registered.
  assert (Hhas : forall c, has inboxListeners c = true
                           <-> is_Some (inboxListeners !! c)).
  { intros c. unfold has. destruct (inboxListeners !! c); simpl.
    - split; eauto.
    - split; [done | by intros [? ?]]. }
  assert (Hnot : forall c, has inboxListeners c = false
                           <-> inboxListeners !! c = None).
  { intros c. unfold has. by destruct (inboxListeners !! c). }
  generalize (class_chain cls) as chain.
  induction chain as [|c chain IH]; simpl.
  - split; [done|]. intros (before & after & Heq & _). by destruct before.
  - destruct (has inboxListeners c) eqn:Hc.
    + split.
      * intros [= <-]. exists [], chain. split; [done|].
        split; [by apply Hhas|]. intros ? Hin. by apply elem_of_nil in Hin.
      * intros (before & after & Heq & Hsome & Hbefore).
        destruct before as [|b before]; simpl in Heq; injection Heq as -> ->.
        -- done.
        -- specialize (Hbefore b ltac:(left)). apply Hnot in Hbefore.
           congruence.
    + rewrite IH. split.
      * intros (before & after & -> & Hsome & Hbefore).
        exists (c :: before), after. split; [done|]. split; [done|].
        intros x Hin. apply elem_of_cons in Hin as [->|Hin];
          [by apply Hnot | by apply Hbefore].
      * intros (before & after & Heq & Hsome & Hbefore).
        destruct before as [|b before]; simpl in Heq; injection Heq as -> ->.
        -- apply Hhas in Hsome. congruence.
        -- exists before, after. split; [done|]. split; [done|].
           intros x Hin. apply Hbefore. by right.
Qed.

Lemma nearest_registered_none (inboxListeners : gmap Cls InboxListener) cls :
  nearest_registered inboxListeners cls = None <->
  forall c, c ∈ class_chain cls -> inboxListeners !! c = None.
Proof.
  unfold nearest_registered. split.
  - intros Hnone c Hin. apply list_elem_of_In in Hin.
    pose proof (find_none _ _ Hnone c Hin) as Hc. unfold has in Hc.
    by destruct (inboxListeners !! c).
  - intros Hall. destruct (find _ _) as [hit|] eqn:Hf; [|done].
    apply find_some in Hf as [Hin Hh]. apply list_elem_of_In in Hin.
    unfold has in Hh. rewrite (Hall _ Hin) in Hh. done.
Qed.

(** * The responders *)

Arguments filterCollectionItems : simpl never.
Arguments acceptsJsonLd : simpl never.
Arguments listener_class : simpl never.
Arguments strictly_true : simpl never.

(** Unfolds the statements of a program down to its calls. *)
Ltac unfold_prog :=
  unfold run, bind, when, fallback, call, ret, return_, throw, log,
    handle_error, await, kv_get, kv_set; simpl.

(** Splits on the next answer of a collaborator that the program
    inspects; the two loops are replaced by their characterizations. *)
Ltac destruct_scrutinee :=
  match goal with
  | |- context [listener_class ?L ?c ?s] =>
      rewrite (listener_class_run L c s);
      let Hn := fresh "Hnearest" in
      destruct (nearest_registered L c) eqn:Hn;
      [ let Hl := fresh "Hlistener" in
        destruct (nearest_registered_has L c _ Hn) as [? Hl];
        simpl; rewrite ?Hl
      | ]
  | |- context [filterCollectionItems ?i ?n ?f ?s] =>
      rewrite (filterCollectionItems_run i n f s)
  | |- context [match ?x with _ => _ end] =>
      lazymatch x with
      | context [match _ with _ => _ end] => fail
      | isnull ?o => destruct o eqn:?
      | negb (isnull ?o) => destruct o eqn:?
      | negb ?b => destruct b eqn:?
      | _ => destruct x eqn:?
      end
  end.

Ltac run_cases := unfold_prog; repeat (destruct_scrutinee; simpl).

(** Closes a goal in which every collaborator's answer is known. *)
Ltac settle :=
  intros;
  repeat match goal with
         | Hx : _ \/ _ |- _ => destruct Hx
         | Hx : exists _, _ |- _ => destruct Hx
         | Hx : _ /\ _ |- _ => destruct Hx
         end;
  simplify_eq; simpl in *; simplify_eq;
  repeat match goal with
         | Heq : ?x = _, Hx : context [match ?x with _ => _ end] |- _ =>
             rewrite Heq in Hx; simpl in Hx
         end;
  simplify_eq;
  try done; try congruence;
  try (exfalso;
       match goal with
       | Hx : ~ _ |- _ =>
           apply Hx; clear Hx;
           first [ done
                 | left; done
                 | right; done
                 | right; eexists; split; [reflexivity | simpl; congruence]
                 | right; eexists; split;
                   [ reflexivity
                   | simpl;
                     repeat match goal with
                            | Heq : ?x = _
                              |- context [match ?x with _ => _ end] =>
                                rewrite Heq; simpl
                            end;
                     congruence ]
                 | repeat eexists; simpl; congruence ]
       end).

Lemma handleActor_precedence `{Externals} {St} (s : St) request p :
  precedence (run (handleActor request p) s)
    (ActorHandlerParameters.onNotFound p request)
    (ActorHandlerParameters.onNotAcceptable p request)
    (ActorHandlerParameters.onUnauthorized p request)
    (ActorHandlerParameters.actorDispatcher p = None
     \/ getActor (ActorHandlerParameters.context p)
          (ActorHandlerParameters.handle p) = None)
    (acceptsJsonLd request = true)
    (exists authorize,
        ActorHandlerParameters.authorizePredicate p = Some authorize
        /\ authorize (ActorHandlerParameters.handle p)
             (getSignedKey (ActorHandlerParameters.context p))
             (getSignedKeyOwner (ActorHandlerParameters.context p)) = false).
Proof.
  destruct p as [handle context ad ap onU onNF onNA]; unfold precedence; simpl.
  unfold handleActor. run_cases.
  all: repeat split; settle.
Qed.

Lemma handleObject_precedence `{Externals} {St} (s : St) request p :
  precedence (run (handleObject request p) s)
    (ObjectHandlerParameters.onNotFound p request)
    (ObjectHandlerParameters.onNotAcceptable p request)
    (ObjectHandlerParameters.onUnauthorized p request)
    (ObjectHandlerParameters.objectDispatcher p = None
     \/ exists dispatcher,
          ObjectHandlerParameters.objectDispatcher p = Some dispatcher
          /\ dispatcher (ObjectHandlerParameters.values p) = None)
    (acceptsJsonLd request = true)
    (exists authorize,
        ObjectHandlerParameters.authorizePredicate p = Some authorize
        /\ authorize (ObjectHandlerParameters.values p)
             (getSignedKey (ObjectHandlerParameters.context p))
             (getSignedKeyOwner (ObjectHandlerParameters.context p)) = false).
Proof.
  destruct p as [values context od ap onU onNF onNA]; unfold precedence; simpl.
  unfold handleObject. run_cases.
  all: repeat split; settle.
Qed.

Lemma handleCollection_precedence `{Externals} {St} (s : St) request p :
  precedence (run (handleCollection request p) s)
    (CollectionHandlerParameters.onNotFound p request)
    (CollectionHandlerParameters.onNotAcceptable p request)
    (CollectionHandlerParameters.onUnauthorized p request)
    (CollectionHandlerParameters.collectionCallbacks p = None
     \/ exists callbacks,
          CollectionHandlerParameters.collectionCallbacks p = Some callbacks
          /\ requested_page request p callbacks = Some None)
    (acceptsJsonLd request = true)
    (exists callbacks authorize,
        CollectionHandlerParameters.collectionCallbacks p = Some callbacks
        /\ CollectionCallbacks.authorizePredicate callbacks = Some authorize
        /\ authorize (CollectionHandlerParameters.handle p)
             (getSignedKey (CollectionHandlerParameters.context p))
             (getSignedKeyOwner (CollectionHandlerParameters.context p)) = false).
Proof.
  destruct p as [name handle filter fp context cbs onU onNF onNA].
  unfold precedence, requested_page; simpl.
  unfold handleCollection.
  destruct cbs as [[dispatcher counter firstCursor lastCursor ap]|]; simpl.
  2: { unfold_prog. repeat split; settle. }
  run_cases.
  all: rewrite ?occurs_app, ?filtering_trace_occurs by done; simpl.
  all: repeat split; settle.
Qed.

(** C4: in the actor, object and collection responders, a missing
    dispatcher or a dispatcher that answers null yields the [onNotFound]
    response before content negotiation is consulted, a failed negotiation
    yields the [onNotAcceptable] response before the authorization
    predicate is consulted, and a configured authorization predicate that
    answers false yields the [onUnauthorized] response. *)
Theorem responders_precedence :
  (forall (E : Externals) St (s : St) request p,
      precedence (run (handleActor request p) s)
        (ActorHandlerParameters.onNotFound p request)
        (ActorHandlerParameters.onNotAcceptable p request)
        (ActorHandlerParameters.onUnauthorized p request)
        (ActorHandlerParameters.actorDispatcher p = None
         \/ getActor (ActorHandlerParameters.context p)
              (ActorHandlerParameters.handle p) = None)
        (acceptsJsonLd request = true)
        (exists authorize,
            ActorHandlerParameters.authorizePredicate p = Some authorize
            /\ authorize (ActorHandlerParameters.handle p)
                 (getSignedKey (ActorHandlerParameters.context p))
                 (getSignedKeyOwner (ActorHandlerParameters.context p))
               = false))
  /\ (forall (E : Externals) St (s : St) request p,
      precedence (run (handleObject request p) s)
        (ObjectHandlerParameters.onNotFound p request)
        (ObjectHandlerParameters.onNotAcceptable p request)
        (ObjectHandlerParameters.onUnauthorized p request)
        (ObjectHandlerParameters.objectDispatcher p = None
         \/ exists dispatcher,
              ObjectHandlerParameters.objectDispatcher p = Some dispatcher
              /\ dispatcher (ObjectHandlerParameters.values p) = None)
        (acceptsJsonLd request = true)
        (exists authorize,
            ObjectHandlerParameters.authorizePredicate p = Some authorize
            /\ authorize (ObjectHandlerParameters.values p)
                 (getSignedKey (ObjectHandlerParameters.context p))
                 (getSignedKeyOwner (ObjectHandlerParameters.context p))
               = false))
  /\ (forall (E : Externals) St (s : St) request p,
      precedence (run (handleCollection request p) s)
        (CollectionHandlerParameters.onNotFound p request)
        (CollectionHandlerParameters.onNotAcceptable p request)
        (CollectionHandlerParameters.onUnauthorized p request)
        (CollectionHandlerParameters.collectionCallbacks p = None
         \/ exists callbacks,
              CollectionHandlerParameters.collectionCallbacks p = Some callbacks
              /\ requested_page request p callbacks = Some None)
        (acceptsJsonLd request = true)
        (exists callbacks authorize,
            CollectionHandlerParameters.collectionCallbacks p = Some callbacks
            /\ CollectionCallbacks.authorizePredicate callbacks = Some authorize
            /\ authorize (CollectionHandlerParameters.handle p)
                 (getSignedKey (CollectionHandlerParameters.context p))
                 (getSignedKeyOwner (CollectionHandlerParameters.context p))
               = false)).
Proof.
  split; [|split]; intros E St s request p.
  - apply handleActor_precedence.
  - apply handleObject_precedence.
  - apply handleCollection_precedence.
Qed.

(** The three precedences at work: an unknown actor asked for with
    [Accept: text/html] is a 404, a known object asked for with
    [Accept: text/html] under a refusing predicate is a 406, and a
    collection page under a refusing predicate is a 401. *)
Lemma responders_precedence_witness :
  outcome (run (@handleActor unit Demo.externals
                  (Demo.get (Demo.iri "https://h/users/carol") (Some "text/html"))
                  (Demo.actor (Some (fun _ => None)) (Some (fun _ _ _ => false))
                     "carol")) tt)
  = Responded Demo.not_found
  /\ outcome (run (@handleObject unit Demo.externals
                     (Demo.get (Demo.iri "https://h/notes/1") (Some "text/html"))
                     (Demo.object (Some (fun _ => Some (mkObject "https://h/notes/1")))
                        (Some (fun _ _ _ => false)))) tt)
     = Responded Demo.not_acceptable
  /\ outcome (run (@handleCollection unit Demo.externals
                     (Demo.get Demo.page_url (Some "application/activity+json"))
                     (Demo.collection Demo.page_url
                        (Some (Demo.paged None (Some (fun _ _ _ => false)))))) tt)
     = Responded Demo.unauthorized.
Proof.
  destruct responders_precedence as (Hactor & Hobject & Hcollection).
  split; [|split].
  - apply (Hactor Demo.externals unit tt
             (Demo.get (Demo.iri "https://h/users/carol") (Some "text/html"))
             (Demo.actor (Some (fun _ => None)) (Some (fun _ _ _ => false))
                "carol")).
    right. reflexivity.
  - apply (Hobject Demo.externals unit tt
             (Demo.get (Demo.iri "https://h/notes/1") (Some "text/html"))
             (Demo.object (Some (fun _ => Some (mkObject "https://h/notes/1")))
                (Some (fun _ _ _ => false)))).
    + intros [Hnone | (d & Hd & Habsent)]; [discriminate Hnone|].
      injection Hd as <-. discriminate Habsent.
    + intros Hacc. vm_compute in Hacc. discriminate Hacc.
  - apply (Hcollection Demo.externals unit tt
             (Demo.get Demo.page_url (Some "application/activity+json"))
             (Demo.collection Demo.page_url
                (Some (Demo.paged None (Some (fun _ _ _ => false)))))).
    + intros [Hnone | (cb & Hcb & Habsent)]; [discriminate Hnone|].
      injection Hcb as <-. vm_compute in Habsent. discriminate Habsent.
    + vm_compute. reflexivity.
    + eexists _, _. split; [reflexivity|]. split; reflexivity.
Defined.

(** * Content negotiation *)

(** C5: [acceptsJsonLd] is false when the most preferred accepted type is
    [text/html] or [application/xhtml+xml], and otherwise true exactly when
    the accepted types contain [application/activity+json],
    [application/ld+json] or [application/json]. For a request without an
    [Accept] header it is false, where the claim asks for true: the test
    [types == null] that answers true is there, but the negotiation library
    answers the wildcard list for such a request and never [null], and the
    wildcard is none of the three types; a header in which nothing parses
    (the empty list) is refused as well. *)
Theorem acceptsJsonLd_negotiation `{Externals} (request : Request) :
  (std_negotiation -> accept_header request = None ->
   acceptsJsonLd request = false)
  /\ (accepts request = Some [] -> acceptsJsonLd request = false)
  /\ (accepts request = None -> acceptsJsonLd request = true)
  /\ (forall types, accepts request = Some types ->
        head types = Some "text/html"
        \/ head types = Some "application/xhtml+xml" ->
        acceptsJsonLd request = false)
  /\ (forall types, accepts request = Some types ->
        head types <> Some "text/html" ->
        head types <> Some "application/xhtml+xml" ->
        (acceptsJsonLd request = true <->
         "application/activity+json" ∈ types
         \/ "application/ld+json" ∈ types
         \/ "application/json" ∈ types)).
Proof.
  unfold acceptsJsonLd. split; [|split; [|split; [|split]]].
  - intros Hstd Hnone. destruct (Hstd request) as [_ Hwild].
    by rewrite (Hwild Hnone).
  - by intros ->.
  - by intros ->.
  - intros types -> Hhead.
    repeat case_bool_decide; simpl; [done | done | done |].
    destruct Hhead; congruence.
  - intros types -> Hhtml Hxhtml.
    rewrite !bool_decide_eq_false_2 by done. simpl.
    rewrite !orb_true_iff, !includes_elem_of. tauto.
Qed.

(** A request without [Accept] header is refused; one that prefers HTML is
    refused; one that asks for JSON-LD is served. *)
Lemma acceptsJsonLd_negotiation_witness :
  @std_negotiation Demo.externals
  /\ accept_header (Demo.get Demo.page_url None) = None
  /\ @acceptsJsonLd Demo.externals (Demo.get Demo.page_url None) = false
  /\ @acceptsJsonLd Demo.externals (Demo.get Demo.page_url (Some "text/html"))
     = false
  /\ @acceptsJsonLd Demo.externals
       (Demo.get Demo.page_url (Some "application/ld+json")) = true.
Proof.
  assert (Hstd : @std_negotiation Demo.externals).
  { intros request. unfold accepts; simpl.
    destruct (accept_header request) as [a|]; [destruct (String.eqb a "")|];
      (split; [discriminate | intros Hnone; done]). }
  split; [exact Hstd|]. split; [reflexivity|]. split; [|split].
  - apply (proj1 (@acceptsJsonLd_negotiation Demo.externals
                    (Demo.get Demo.page_url None))).
    + exact Hstd.
    + reflexivity.
  - apply (proj1 (proj2 (proj2 (proj2
             (@acceptsJsonLd_negotiation Demo.externals
                (Demo.get Demo.page_url (Some "text/html"))))))
             ["text/html"]).
    + reflexivity.
    + left. reflexivity.
  - apply (proj2 (proj2 (proj2 (proj2
             (@acceptsJsonLd_negotiation Demo.externals
                (Demo.get Demo.page_url (Some "application/ld+json"))))))
             ["application/ld+json"]).
    + reflexivity.
    + discriminate.
    + discriminate.
    + right. left. apply list_elem_of_here.
Defined.

(** * Collections *)

Lemma filtering_trace_filter name fp logged items P :
  (forall c l m, P (Logged c l m) = false) ->
  List.filter P (filtering_trace name fp logged items) = [].
Proof.
  intros HP. unfold filtering_trace.
  destruct (negb logged && existsb (omitted fp) items); simpl; [|done].
  by rewrite HP.
Qed.

(** Splits a membership in a trace into its possible positions. *)
Ltac in_trace Hin :=
  repeat first
    [ apply elem_of_app in Hin as [Hin|Hin]
    | apply elem_of_cons in Hin as [Hin|Hin]
    | apply elem_of_nil in Hin; destruct Hin
    | apply filtering_trace_elem_of in Hin ];
  try discriminate Hin; simplify_eq.

(** C7, as stated, fails: the links of a page are built from
    [context.url], which the handler never compares with [request.url]
    (it only reads the cursor from the latter). With a context that
    carries another URL than the request, [partOf], [prev] and [next] are
    not the request URL with its cursor removed or replaced. *)
Lemma page_links_follow_context_url :
  let request := Demo.fetch Demo.page_url in
  let internal := mkURL "http://localhost:8000/x" [("cursor", "p5")] "" in
  let r := run (@handleCollection unit Demo.externals request
                  (Demo.collection internal (Some (Demo.paged None None))))
             tt in
  SearchParams.get "cursor" (searchParams (req_url request)) = Some "p5"
  /\ outcome r
     = Responded
         (ok_json
            (ECollectionPage
               {| ocp_prev :=
                    Some (mkURL "http://localhost:8000/x" [("cursor", "p4")] "");
                  ocp_next :=
                    Some (mkURL "http://localhost:8000/x" [("cursor", "p6")] "");
                  ocp_items := [MURL Demo.u1];
                  ocp_partOf := mkURL "http://localhost:8000/x" [] "" |}))
  /\ mkURL "http://localhost:8000/x" [] ""
     <> url_without_param "cursor" (req_url request)
  /\ mkURL "http://localhost:8000/x" [("cursor", "p4")] ""
     <> url_with_param "cursor" "p4" (req_url request)
  /\ mkURL "http://localhost:8000/x" [("cursor", "p6")] ""
     <> url_with_param "cursor" "p6" (req_url request).
Proof.
  cbv zeta. split; [reflexivity|]. split; [vm_compute; reflexivity|].
  repeat split; intros Heq; vm_compute in Heq; discriminate Heq.
Qed.

(** C7, amended: for a collection page response (the [cursor] query
    parameter is supplied and the dispatcher returns a page), the emitted
    [OrderedCollectionPage] has [partOf] equal to the URL of the request
    context with the [cursor] parameter removed, and [prev] (respectively
    [next]) present exactly when the page's [prevCursor] (respectively
    [nextCursor]) is non-null, equal to the URL of the request context
    with the [cursor] parameter replaced by that cursor; these are the
    request URL with the cursor removed or replaced whenever the context
    carries the request URL. *)
Theorem collection_page_links `{Externals} {St} (s : St) request p callbacks
    cursor page :
  CollectionHandlerParameters.collectionCallbacks p = Some callbacks ->
  SearchParams.get "cursor" (searchParams (req_url request)) = Some cursor ->
  CollectionCallbacks.dispatcher callbacks
    (CollectionHandlerParameters.handle p) (Some cursor)
    (CollectionHandlerParameters.filter p) = Some page ->
  let r := run (handleCollection request p) s in
  let url := context_url (CollectionHandlerParameters.context p) in
  let links (u : URL) :=
    {| ocp_prev :=
         match prevCursor page with
         | Some c => Some (url_with_param "cursor" c u)
         | None => None
         end;
       ocp_next :=
         match nextCursor page with
         | Some c => Some (url_with_param "cursor" c u)
         | None => None
         end;
       ocp_items :=
         projected (CollectionHandlerParameters.filterPredicate p) (items page);
       ocp_partOf := url_without_param "cursor" u |} in
  let emitted := links url in
  (acceptsJsonLd request = true -> collection_authorized p callbacks ->
   outcome r = Responded (ok_json (ECollectionPage emitted)))
  /\ (forall e, ToJsonLd e ∈ trace r -> e = ECollectionPage emitted)
  /\ (is_Some (ocp_prev emitted) <-> is_Some (prevCursor page))
  /\ (is_Some (ocp_next emitted) <-> is_Some (nextCursor page))
  /\ (forall name,
        SearchParams.get name (searchParams (ocp_partOf emitted))
        = if String.eqb name "cursor" then None
          else SearchParams.get name (searchParams url))
  /\ (forall u name, ocp_prev emitted = Some u \/ ocp_next emitted = Some u ->
        url_base u = url_base url
        /\ url_hash u = url_hash url
        /\ (name <> "cursor" ->
            SearchParams.get name (searchParams u)
            = SearchParams.get name (searchParams url)))
  /\ (forall u, ocp_prev emitted = Some u ->
        SearchParams.get "cursor" (searchParams u) = prevCursor page)
  /\ (forall u, ocp_next emitted = Some u ->
        SearchParams.get "cursor" (searchParams u) = nextCursor page)
  /\ (url = req_url request -> emitted = links (req_url request)).
Proof.
  destruct p as [name handle filter fp context cbs onU onNF onNA]; simpl.
  intros -> Hcursor Hpage.
  split; [|split]; [| |repeat split].
  - unfold handleCollection, collection_authorized; simpl.
    rewrite Hcursor. unfold_prog. rewrite Hpage; simpl.
    rewrite filterCollectionItems_run; simpl.
    intros -> Hauth; simpl.
    destruct (CollectionCallbacks.authorizePredicate callbacks) as [authorize|];
      simpl; [|done].
    by rewrite (Hauth authorize eq_refl).
  - unfold handleCollection; simpl.
    rewrite Hcursor. unfold_prog. rewrite Hpage; simpl.
    rewrite filterCollectionItems_run; simpl.
    repeat (destruct_scrutinee; simpl).
    all: intros e Hin; in_trace Hin; done.
  - destruct (prevCursor page); simpl; [by eauto | by intros [? ?]].
  - destruct (prevCursor page); simpl; [by eauto | by intros [? ?]].
  - destruct (nextCursor page); simpl; [by eauto | by intros [? ?]].
  - destruct (nextCursor page); simpl; [by eauto | by intros [? ?]].
  - intros n. destruct (String.eqb n "cursor") eqn:E.
    + apply String.eqb_eq in E as ->. apply get_delete_eq.
    + apply get_delete_ne. intros ->. by rewrite String.eqb_refl in E.
  - destruct H0 as [Hu|Hu];
      [destruct (prevCursor page)|destruct (nextCursor page)];
      by simplify_eq.
  - destruct H0 as [Hu|Hu];
      [destruct (prevCursor page)|destruct (nextCursor page)];
      by simplify_eq.
  - intros Hne. destruct H0 as [Hu|Hu];
      [destruct (prevCursor page)|destruct (nextCursor page)];
      simplify_eq; simpl; by apply get_set_ne.
  - intros u Hu. destruct (prevCursor page); simplify_eq. simpl.
    apply get_set_eq.
  - intros u Hu. destruct (nextCursor page); simplify_eq. simpl.
    apply get_set_eq.
  - by intros ->.
Qed.

(** The page scenario: [https://h/x?cursor=p5], requested by a peer that
    asks for [application/activity+json], with a page whose cursors are
    [p4] and [p6]. *)
Lemma collection_page_links_witness :
  outcome (run (@handleCollection unit Demo.externals
                  (Demo.fetch Demo.page_url)
                  (Demo.collection Demo.page_url (Some (Demo.paged None None))))
             tt)
  = Responded
      (ok_json
         (ECollectionPage
            {| ocp_prev := Some (mkURL "https://h/x" [("cursor", "p4")] "");
               ocp_next := Some (mkURL "https://h/x" [("cursor", "p6")] "");
               ocp_items := [MURL Demo.u1];
               ocp_partOf := mkURL "https://h/x" [] "" |})).
Proof.
  apply (proj1 (@collection_page_links Demo.externals unit tt
                  (Demo.fetch Demo.page_url)
                  (Demo.collection Demo.page_url (Some (Demo.paged None None)))
                  (Demo.paged None None) "p5" Demo.page5
                  eq_refl eq_refl eq_refl)).
  - reflexivity.
  - intros authorize Hsome. discriminate Hsome.
Defined.

(** The summary that offers cursoring: no items are embedded, [first] and
    [last] are the context URL with [cursor] set, and [totalItems] is
    [Number(totalItems)] whatever the counter answered. *)
Lemma collection_summary_emitted `{Externals} {St} (s : St) request p callbacks
    first :
  CollectionHandlerParameters.collectionCallbacks p = Some callbacks ->
  SearchParams.get "cursor" (searchParams (req_url request)) = None ->
  match CollectionCallbacks.firstCursor callbacks with
  | Some firstCursor => firstCursor (CollectionHandlerParameters.handle p)
  | None => None
  end = Some first ->
  acceptsJsonLd request = true ->
  collection_authorized p callbacks ->
  outcome (run (handleCollection request p) s)
  = Responded
      (ok_json
         (ECollection
            {| oc_totalItems :=
                 Some (Number
                         match CollectionCallbacks.counter callbacks with
                         | Some counter =>
                             counter (CollectionHandlerParameters.handle p)
                         | None => CUndefined
                         end);
               oc_items := None;
               oc_first :=
                 Some (url_with_param "cursor" first
                         (context_url (CollectionHandlerParameters.context p)));
               oc_last :=
                 match
                   match CollectionCallbacks.lastCursor callbacks with
                   | Some lastCursor =>
                       lastCursor (CollectionHandlerParameters.handle p)
                   | None => None
                   end
                 with
                 | Some last =>
                     Some (url_with_param "cursor" last
                             (context_url
                                (CollectionHandlerParameters.context p)))
                 | None => None
                 end |})).
Proof.
  destruct p as [name handle filter fp context cbs onU onNF onNA]; simpl.
  destruct callbacks as [dispatcher counter firstCursor lastCursor ap]; simpl.
  intros -> Hcursor Hfirst Hacc Hauth.
  unfold handleCollection, collection_authorized in *; simpl in *.
  rewrite Hcursor, Hacc. unfold_prog.
  destruct firstCursor as [fc|]; [|done]. simpl. rewrite Hfirst. simpl.
  destruct ap as [authorize|]; simpl; [rewrite (Hauth authorize eq_refl)|];
    destruct counter, lastCursor as [lc|]; simpl; try destruct (lc handle);
    reflexivity.
Qed.

(** C8: in the summary branch where a first cursor exists, for a request
    that negotiates JSON-LD and is authorized, the emitted
    [OrderedCollection] embeds no items and its [first] and [last] are the
    URL of the context with [cursor] set ([last] only when the last-cursor
    callback answers a cursor); but [totalItems] is [Number(totalItems)]
    unconditionally and so never null: [NaN] when the counter is absent
    and [0] when it answers null, where the claim asks for null; only a
    counter that answers a number is emitted as the claim says. *)
Theorem summary_totalItems_is_Number `{Externals} {St} (s : St) request p
    callbacks first :
  CollectionHandlerParameters.collectionCallbacks p = Some callbacks ->
  SearchParams.get "cursor" (searchParams (req_url request)) = None ->
  match CollectionCallbacks.firstCursor callbacks with
  | Some firstCursor => firstCursor (CollectionHandlerParameters.handle p)
  | None => None
  end = Some first ->
  acceptsJsonLd request = true ->
  collection_authorized p callbacks ->
  let url := context_url (CollectionHandlerParameters.context p) in
  let handle := CollectionHandlerParameters.handle p in
  exists summary,
    outcome (run (handleCollection request p) s)
    = Responded (ok_json (ECollection summary))
    /\ oc_items summary = None
    /\ oc_first summary = Some (url_with_param "cursor" first url)
    /\ oc_last summary
       = match
           match CollectionCallbacks.lastCursor callbacks with
           | Some lastCursor => lastCursor handle
           | None => None
           end
         with
         | Some last => Some (url_with_param "cursor" last url)
         | None => None
         end
    /\ oc_totalItems summary <> None
    /\ (CollectionCallbacks.counter callbacks = None ->
        oc_totalItems summary = Some NaN)
    /\ (forall counter,
          CollectionCallbacks.counter callbacks = Some counter ->
          counter handle = CNull ->
          oc_totalItems summary = Some (Num 0))
    /\ (forall counter n,
          CollectionCallbacks.counter callbacks = Some counter ->
          counter handle = CNumber n ->
          oc_totalItems summary = Some n).
Proof.
  intros Hcallbacks Hcursor Hfirst Hacceptable Hauthorized url handle.
  eexists. split.
  - exact (collection_summary_emitted s request p callbacks first
             Hcallbacks Hcursor Hfirst Hacceptable Hauthorized).
  - simpl. repeat split.
    + discriminate.
    + by intros ->.
    + intros counter -> Hnull. fold handle. by rewrite Hnull.
    + intros counter n -> Hnumber. fold handle. by rewrite Hnumber.
Qed.

(** The summary of [https://h/x?a=1], requested with
    [Accept: application/activity+json], when the counter is absent and
    when it answers null. *)
Lemma summary_totalItems_is_Number_witness :
  let summary counter :=
    outcome (run (@handleCollection unit Demo.externals
                    (Demo.fetch Demo.summary_url)
                    (Demo.collection Demo.summary_url
                       (Some (Demo.paged counter None)))) tt) in
  let emitted totalItems :=
    Responded
      (ok_json
         (ECollection
            {| oc_totalItems := totalItems;
               oc_items := None;
               oc_first :=
                 Some (mkURL "https://h/x" [("a", "1"); ("cursor", "c0")] "");
               oc_last :=
                 Some (mkURL "https://h/x" [("a", "1"); ("cursor", "c9")] "")
            |})) in
  summary None = emitted (Some NaN)
  /\ summary (Some (fun _ => CNull)) = emitted (Some (Num 0)).
Proof.
  cbv zeta. split.
  - destruct (@summary_totalItems_is_Number Demo.externals unit tt
                (Demo.fetch Demo.summary_url)
                (Demo.collection Demo.summary_url (Some (Demo.paged None None)))
                (Demo.paged None None) "c0" eq_refl eq_refl eq_refl eq_refl)
      as (summary & Hout & Hitems & Hfirst & Hlast & _ & Habsent & _).
    + intros authorize Hsome. discriminate Hsome.
    + rewrite Hout. destruct summary as [totalItems items first last].
      simpl in *. rewrite Hitems, Hfirst, Hlast, (Habsent eq_refl).
      reflexivity.
  - destruct (@summary_totalItems_is_Number Demo.externals unit tt
                (Demo.fetch Demo.summary_url)
                (Demo.collection Demo.summary_url
                   (Some (Demo.paged (Some (fun _ => CNull)) None)))
                (Demo.paged (Some (fun _ => CNull)) None) "c0"
                eq_refl eq_refl eq_refl eq_refl)
      as (summary & Hout & Hitems & Hfirst & Hlast & _ & _ & Hnull & _).
    + intros authorize Hsome. discriminate Hsome.
    + rewrite Hout. destruct summary as [totalItems items first last].
      simpl in *. rewrite Hitems, Hfirst, Hlast, (Hnull _ eq_refl eq_refl).
      reflexivity.
Defined.

(** C10: on a page request the counter, [firstCursor] and [lastCursor]
    callbacks are never called, whether they are configured or not; the
    dispatcher is called exactly once, with the cursor, and the only other
    member of the bundle that can be called is the authorization
    predicate. *)
Theorem page_request_callbacks `{Externals} {St} (s : St) request p callbacks
    cursor :
  CollectionHandlerParameters.collectionCallbacks p = Some callbacks ->
  SearchParams.get "cursor" (searchParams (req_url request)) = Some cursor ->
  let t := trace (run (handleCollection request p) s) in
  occurs is_summary_callback t = false
  /\ List.filter is_dispatch t
     = [Dispatched (Some cursor)
          (negb (isnull (CollectionCallbacks.dispatcher callbacks
                           (CollectionHandlerParameters.handle p) (Some cursor)
                           (CollectionHandlerParameters.filter p))))]
  /\ (forall e, e ∈ t -> is_collection_callback e = true ->
        is_dispatch e = true \/ is_authorization e = true).
Proof.
  destruct p as [name handle filter fp context cbs onU onNF onNA]; simpl.
  intros -> Hcursor.
  unfold handleCollection; simpl. rewrite Hcursor. run_cases.
  all: rewrite ?occurs_app, ?filtering_trace_occurs by done; simpl.
  all: rewrite ?List.filter_app, ?filtering_trace_filter by done; simpl.
  all: split; [done|]; split; [done|].
  all: intros e Hin Hcb; in_trace Hin; auto.
  all: destruct e; discriminate.
Qed.

Lemma page_request_callbacks_witness :
  occurs is_summary_callback
    (trace (run (@handleCollection unit Demo.externals
                   (Demo.fetch Demo.page_url)
                   (Demo.collection Demo.page_url
                      (Some (Demo.paged (Some (fun _ => CNumber (Num 42)))
                               (Some (fun _ _ _ => true)))))) tt)) = false.
Proof.
  apply (@page_request_callbacks Demo.externals unit tt
           (Demo.fetch Demo.page_url)
           (Demo.collection Demo.page_url
              (Some (Demo.paged (Some (fun _ => CNumber (Num 42)))
                       (Some (fun _ _ _ => true)))))
           (Demo.paged (Some (fun _ => CNumber (Num 42)))
              (Some (fun _ _ _ => true)))
           "p5" eq_refl eq_refl).
Defined.

(** * Content types *)

(** C6, as stated, fails: the 202 of a processed delivery is
    [text/plain]. *)
Lemma inbox_success_is_text_plain :
  let r := run (@handleInbox Demo.externals
                  (Demo.signed_post Demo.bob_key "create-2")
                  (Demo.inbox Demo.on_create)) ∅ in
  outcome r = Responded accepted_empty
  /\ occurs is_listener_call (trace r) = true
  /\ status accepted_empty = 202
  /\ emits_text_plain accepted_empty
  /\ ~ emits_activity_json accepted_empty.
Proof.
  cbv zeta. repeat split; try (vm_compute; reflexivity).
  intros Hjson. vm_compute in Hjson. discriminate Hjson.
Qed.

(** C6, amended: every response that the actor, object and collection
    responders and the object response helpers build themselves is a 200
    whose [Content-Type] is exactly [application/activity+json]; every
    response that the inbox pipeline builds itself, its 202 responses
    included, has [Content-Type: text/plain; charset=utf-8]. *)
Theorem success_content_types :
  (forall (E : Externals) St (s : St) request p response,
      outcome (run (handleActor request p) s) = Responded response ->
      occurs is_fallback (trace (run (handleActor request p) s)) = false ->
      status response = 200 /\ emits_activity_json response)
  /\ (forall (E : Externals) St (s : St) request p response,
      outcome (run (handleObject request p) s) = Responded response ->
      occurs is_fallback (trace (run (handleObject request p) s)) = false ->
      status response = 200 /\ emits_activity_json response)
  /\ (forall (E : Externals) St (s : St) request p response,
      outcome (run (handleCollection request p) s) = Responded response ->
      occurs is_fallback (trace (run (handleCollection request p) s)) = false ->
      status response = 200 /\ emits_activity_json response)
  /\ (forall St (s : St) object response,
      outcome (run (respondWithObject object) s) = Responded response ->
      status response = 200 /\ emits_activity_json response)
  /\ (forall (E : Externals) St (s s' : St) object request response t,
      respondWithObjectIfAcceptable object request s
      = (Next (Some response), s', t) ->
      status response = 200 /\ emits_activity_json response)
  /\ (forall (E : Externals) request p (kv : KvStore) response,
      outcome (run (handleInbox request p) kv) = Responded response ->
      occurs is_fallback (trace (run (handleInbox request p) kv)) = false ->
      emits_text_plain response /\ ~ emits_activity_json response).
Proof.
  unfold emits_activity_json, emits_text_plain.
  split; [|split; [|split; [|split; [|split]]]].
  - intros E St s request [handle context ad ap onU onNF onNA] response.
    unfold handleActor. run_cases. all: intros; by simplify_eq.
  - intros E St s request [values context od ap onU onNF onNA] response.
    unfold handleObject. run_cases. all: intros; by simplify_eq.
  - intros E St s request [name handle filter fp context cbs onU onNF onNA]
      response.
    unfold handleCollection. run_cases.
    all: rewrite ?occurs_app, ?filtering_trace_occurs by done; simpl.
    all: intros; by simplify_eq.
  - intros St s object response. unfold respondWithObject. unfold_prog.
    intros; by simplify_eq.
  - intros E St s s' object request response t.
    unfold respondWithObjectIfAcceptable, respondWithObject. run_cases.
    all: intros; by simplify_eq.
  - intros E request [handle context kvPrefix ad L eh onNF w] kv response.
    unfold handleInbox. run_cases. all: intros; by simplify_eq.
Qed.

Lemma success_content_types_witness :
  emits_activity_json
    (ok_json (EActor (mkActor "https://h/users/alice")))
  /\ emits_text_plain accepted_empty.
Proof.
  destruct success_content_types as (Hactor & _ & _ & _ & _ & Hinbox).
  split.
  - apply (Hactor Demo.externals unit tt
             (Demo.fetch (Demo.iri "https://h/users/alice"))
             (Demo.actor (Some (fun _ => None)) None "alice")
             (ok_json (EActor (mkActor "https://h/users/alice")))).
    + reflexivity.
    + reflexivity.
  - apply (Hinbox Demo.externals (Demo.signed_post Demo.bob_key "create-2")
             (Demo.inbox Demo.on_create) ∅ accepted_empty).
    + vm_compute. reflexivity.
    + vm_compute. reflexivity.
Defined.

(** * The inbox *)

Ltac inbox_cases p :=
  destruct p as [handle context kvPrefix actorDispatcher inboxListeners
                   inboxErrorHandler onNotFound signatureTimeWindow];
  unfold handleInbox, reaches_dispatch, delivered, cached, idempotency_key;
  simpl; run_cases.

(** Closes a case of the inbox in which every answer is known. *)
Ltac settle_inbox :=
  intros; simplify_eq;
  repeat match goal with
         | Heq : ?x = _, Hx : context [match ?x with _ => _ end] |- _ =>
             rewrite Heq in Hx; simpl in Hx
         | Heq : ?x = _, Hx : context [strictly_true ?x] |- _ =>
             rewrite Heq in Hx
         | Hx : strictly_true (Some _) = _ |- _ => cbv in Hx
         | Hx : strictly_true None = _ |- _ => cbv in Hx
         | Hx : Some _ = Some _ |- _ => injection Hx as Hx
         | Hx : (_, _) = (_, _) |- _ => injection Hx as ? ?
         end;
  simplify_eq; try done; try congruence.

(** A delivery whose idempotency record is [true] is answered at once. *)
Lemma recorded_delivery_short_circuits `{Externals} (request : Request)
    (p : InboxHandlerParameters.t) (kv : KvStore) key activity id :
  delivered request p = Some (key, activity) ->
  activity_id activity = Some id ->
  cached (InboxHandlerParameters.kvPrefix p) kv activity = Some (VBool true) ->
  let r := run (handleInbox request p) kv in
  outcome r = Responded (already_processed (href id))
  /\ occurs is_listener_call (trace r) = false
  /\ occurs is_commit (trace r) = false
  /\ final r = kv.
Proof.
  revert key activity id. inbox_cases p.
  all: settle_inbox.
Qed.

(** A commit records [true] for one day at the idempotency key of the
    delivered activity. *)
Lemma commit_records `{Externals} (request : Request)
    (p : InboxHandlerParameters.t) (kv : KvStore) key activity id :
  delivered request p = Some (key, activity) ->
  activity_id activity = Some id ->
  occurs is_commit (trace (run (handleInbox request p) kv)) = true ->
  final (run (handleInbox request p) kv)
  = <[InboxHandlerParameters.kvPrefix p ++ [href id]
      := mkEntry (VBool true) one_day]> kv.
Proof.
  revert key activity id. inbox_cases p.
  all: settle_inbox.
Qed.

(** C1, as stated, fails: the store answers the number 1, a truthy value,
    at the idempotency key, and the delivery is dispatched to the listener
    and answered with an empty 202. *)
Lemma truthy_record_is_dispatched :
  let request := Demo.signed_post Demo.bob_key "create-2" in
  let p := Demo.inbox Demo.on_create in
  let r := run (@handleInbox Demo.externals request p) Demo.store_with_one in
  @delivered Demo.externals request p
  = Some (Some (mkKey Demo.bob_key), Demo.create "2")
  /\ @cached Demo.externals (InboxHandlerParameters.kvPrefix p)
       Demo.store_with_one (Demo.create "2") = Some (VNumber (Num 1))
  /\ truthy (VNumber (Num 1)) = true
  /\ outcome r = Responded accepted_empty
  /\ outcome r <> Responded (already_processed "https://e/a/2")
  /\ occurs is_listener_call (trace r) = true.
Proof.
  cbv zeta. repeat split; try (vm_compute; reflexivity).
  vm_compute. discriminate.
Qed.

(** C1, amended: for every inbox delivery whose activity has a non-null
    id, if the key-value store answers exactly [true] at the key formed by
    the prefix and the id's href, [handleInbox] returns 202 with body
    "Activity <id> has already been processed." and no listener is
    invoked; and once a delivery has been recorded, a later delivery of an
    activity with the same id is answered that way. *)
Theorem recorded_activity_is_not_redispatched :
  (forall (E : Externals) (request : Request) (p : InboxHandlerParameters.t)
          (kv : KvStore) key activity id,
      delivered request p = Some (key, activity) ->
      activity_id activity = Some id ->
      cached (InboxHandlerParameters.kvPrefix p) kv activity
      = Some (VBool true) ->
      let r := run (handleInbox request p) kv in
      outcome r = Responded (already_processed (href id))
      /\ occurs is_listener_call (trace r) = false
      /\ occurs is_commit (trace r) = false
      /\ final r = kv)
  /\ (forall (E : Externals) (request request' : Request)
             (p p' : InboxHandlerParameters.t) (kv : KvStore)
             key activity key' activity' id,
      delivered request p = Some (key, activity) ->
      activity_id activity = Some id ->
      occurs is_commit (trace (run (handleInbox request p) kv)) = true ->
      delivered request' p' = Some (key', activity') ->
      activity_id activity' = Some id ->
      InboxHandlerParameters.kvPrefix p' = InboxHandlerParameters.kvPrefix p ->
      let r' := run (handleInbox request' p')
                  (final (run (handleInbox request p) kv)) in
      outcome r' = Responded (already_processed (href id))
      /\ occurs is_listener_call (trace r') = false).
Proof.
  split.
  - intros E request p kv key activity id.
    apply recorded_delivery_short_circuits.
  - intros E request request' p p' kv key activity key' activity' id
      Hd Hid Hcommit Hd' Hid' Hprefix r'.
    assert (Hcached : cached (InboxHandlerParameters.kvPrefix p')
                        (final (run (handleInbox request p) kv)) activity'
                      = Some (VBool true)).
    { rewrite (commit_records request p kv key activity id Hd Hid Hcommit).
      unfold cached, idempotency_key. rewrite Hid', Hprefix.
      by rewrite lookup_insert_eq. }
    destruct (recorded_delivery_short_circuits request' p' _ key' activity' id
                Hd' Hid' Hcached) as (Hout & Hnone & _).
    by split.
Qed.

Lemma recorded_activity_is_not_redispatched_witness :
  outcome (run (@handleInbox Demo.externals
                  (Demo.signed_post Demo.bob_key "create-2")
                  (Demo.inbox Demo.on_create)) Demo.store_with_true)
  = Responded (already_processed "https://e/a/2")
  /\ outcome (run (@handleInbox Demo.externals
                     (Demo.signed_post Demo.bob_key "create-2")
                     (Demo.inbox Demo.on_create))
                (final (run (@handleInbox Demo.externals
                               (Demo.signed_post Demo.bob_key "create-2")
                               (Demo.inbox Demo.on_create)) ∅)))
     = Responded (already_processed "https://e/a/2").
Proof.
  destruct recorded_activity_is_not_redispatched as [Hhit Hagain].
  split.
  - apply (Hhit Demo.externals (Demo.signed_post Demo.bob_key "create-2")
             (Demo.inbox Demo.on_create) Demo.store_with_true
             (Some (mkKey Demo.bob_key)) (Demo.create "2")
             (Demo.iri "https://e/a/2")).
    + reflexivity.
    + reflexivity.
    + vm_compute. reflexivity.
  - apply (Hagain Demo.externals (Demo.signed_post Demo.bob_key "create-2")
             (Demo.signed_post Demo.bob_key "create-2")
             (Demo.inbox Demo.on_create) (Demo.inbox Demo.on_create) ∅
             (Some (mkKey Demo.bob_key)) (Demo.create "2")
             (Some (mkKey Demo.bob_key)) (Demo.create "2")
             (Demo.iri "https://e/a/2")).
    + reflexivity.
    + reflexivity.
    + vm_compute. reflexivity.
    + reflexivity.
    + reflexivity.
    + reflexivity.
Defined.

(** Finds an event in a trace whose events are known. *)
Ltac find_event := repeat first [ left | right ].

(** Decides an ordering of a trace whose events are known. *)
Ltac order :=
  first [ apply preceded_by_b_sound | apply never_followed_by_b_sound ];
  simpl;
  repeat match goal with
         | Heq : ?x = _ |- context [?x] => rewrite Heq; simpl
         end;
  reflexivity.

(** C2: within one [handleInbox] request the listener is invoked strictly
    after the signature verification (embedded proof or HTTP signature)
    and after the idempotency-store query, and strictly before the
    idempotency commit; the commit stores [true] with a time-to-live of
    one day ([{ days: 1 }]) and occurs only if the listener returned
    without throwing and an idempotency key was computed, and the response
    is then 202 with an empty body. *)
Theorem listener_between_checks_and_commit `{Externals} (request : Request)
    (p : InboxHandlerParameters.t) (kv : KvStore) :
  let r := run (handleInbox request p) kv in
  preceded_by is_verified is_listener_call (trace r)
  /\ never_followed_by is_listener_call is_verified (trace r)
  /\ preceded_by is_store_query is_identified_listener_call (trace r)
  /\ never_followed_by is_listener_call is_store_query (trace r)
  /\ preceded_by is_listener_call is_commit (trace r)
  /\ never_followed_by is_commit is_listener_call (trace r)
  /\ (forall key value ttl,
        KvSet key value ttl ∈ trace r ->
        value = VBool true
        /\ ttl = {| days := 1; hours := 0; minutes := 0; seconds := 0 |}
        /\ (exists cls activity,
              ListenerCalled cls activity false ∈ trace r
              /\ idempotency_key (InboxHandlerParameters.kvPrefix p) activity
                 = Some key)
        /\ occurs is_listener_failure (trace r) = false
        /\ final r
           = <[key := mkEntry (VBool true)
                        {| days := 1; hours := 0; minutes := 0;
                           seconds := 0 |}]> kv
        /\ outcome r = Responded accepted_empty)
  /\ (forall cls activity key,
        ListenerCalled cls activity false ∈ trace r ->
        idempotency_key (InboxHandlerParameters.kvPrefix p) activity
        = Some key ->
        KvSet key (VBool true)
          {| days := 1; hours := 0; minutes := 0; seconds := 0 |} ∈ trace r)
  /\ (occurs is_commit (trace r) = false -> final r = kv).
Proof.
  intros r. assert (Hr : r = run (handleInbox request p) kv) by reflexivity.
  clearbody r. revert r Hr. inbox_cases p.
  all: intros r ->; simpl.
  all: repeat match goal with |- _ /\ _ => split end.
  all: try order.
  all: try done.
  all: lazymatch goal with
       | |- forall key value ttl, KvSet key value ttl ∈ _ -> _ =>
           intros key value ttl Hin; in_trace Hin;
           repeat match goal with |- _ /\ _ => split end; try done;
           (eexists _, _;
            (split;
             [ find_event
             | simpl; repeat match goal with
                             | Heq : ?x = _ |- context [?x] => rewrite Heq
                             end; reflexivity ]))
       | |- forall cls activity key, ListenerCalled cls activity false ∈ _ -> _ =>
           intros cls activity key Hin Hkey; in_trace Hin;
           repeat match goal with
                  | Heq : ?x = _, Hx : context [?x] |- _ =>
                      rewrite Heq in Hx; simpl in Hx
                  end;
           simplify_eq; find_event
       | |- _ => idtac
       end.
Qed.

Lemma listener_between_checks_and_commit_witness :
  let r := run (@handleInbox Demo.externals
                  (Demo.signed_post Demo.bob_key "create-2")
                  (Demo.inbox Demo.on_create)) ∅ in
  final r
  = <[Demo.key_of "2"
      := mkEntry (VBool true)
           {| days := 1; hours := 0; minutes := 0; seconds := 0 |}]> ∅
  /\ outcome r = Responded accepted_empty.
Proof.
  cbv zeta.
  destruct (@listener_between_checks_and_commit Demo.externals
              (Demo.signed_post Demo.bob_key "create-2")
              (Demo.inbox Demo.on_create) ∅)
    as (_ & _ & _ & _ & _ & _ & Hcommit & _ & _).
  destruct (Hcommit (Demo.key_of "2") (VBool true)
              {| days := 1; hours := 0; minutes := 0; seconds := 0 |})
    as (_ & _ & _ & _ & Hfinal & Hout).
  - vm_compute. find_event.
  - split; assumption.
Defined.

(** C3: whenever the listener is invoked, an embedded-proof verification
    succeeded before it in the same request, or an HTTP-signature
    verification and a key-ownership check both succeeded before it; when
    the request arrived over the HTTP-signature path and the ownership
    predicate answers false, the response is 401 "The signer and the actor
    do not match."; and an activity verified by its embedded proof skips
    the ownership check. *)
Theorem listener_requires_verified_sender `{Externals} (request : Request)
    (p : InboxHandlerParameters.t) (kv : KvStore) :
  let r := run (handleInbox request p) kv in
  (forall t1 cls activity threw t2,
      trace r = t1 ++ ListenerCalled cls activity threw :: t2 ->
      occurs is_proof_verified t1 = true
      \/ (occurs is_signature_verified t1 = true
          /\ occurs is_ownership_confirmed t1 = true))
  /\ (occurs is_ownership_denied (trace r) = true ->
      outcome r = Responded signer_mismatch
      /\ occurs is_listener_call (trace r) = false
      /\ final r = kv)
  /\ (forall key activity,
        delivered request p = Some (Some key, activity) ->
        strictly_true
          (cached (InboxHandlerParameters.kvPrefix p) kv activity) = false ->
        activity_actorId activity <> None ->
        doesActorOwnKey activity key = false ->
        outcome r = Responded signer_mismatch
        /\ occurs is_ownership_denied (trace r) = true)
  /\ preceded_by is_signature_verified is_ownership_check (trace r)
  /\ (occurs is_proof_verified (trace r) = true ->
      occurs is_ownership_check (trace r) = false)
  /\ (forall activity,
        delivered request p = Some (None, activity) ->
        occurs is_ownership_check (trace r) = false).
Proof.
  intros r. assert (Hr : r = run (handleInbox request p) kv) by reflexivity.
  clearbody r. revert r Hr. inbox_cases p.
  all: intros r ->; simpl.
  all: repeat match goal with |- _ /\ _ => split end.
  all: try order.
  all: try done.
  all: lazymatch goal with
       | |- forall t1 : list Event, _ =>
           intros ? ? ? ? ? Hsplit;
           match type of Hsplit with
           | ?t = _ =>
               first
                 [ left;
                   exact (preceded_by_b_sound is_proof_verified
                            is_listener_call t eq_refl _ _ _ Hsplit eq_refl)
                 | right; split;
                   [ exact (preceded_by_b_sound is_signature_verified
                              is_listener_call t eq_refl _ _ _ Hsplit eq_refl)
                   | exact (preceded_by_b_sound is_ownership_confirmed
                              is_listener_call t eq_refl _ _ _ Hsplit
                              eq_refl) ] ]
           end
       | |- _ => settle_inbox
       end.
Qed.

Lemma listener_requires_verified_sender_witness :
  outcome (run (@handleInbox Demo.externals
                  (Demo.signed_post Demo.mallory_key "create-2")
                  (Demo.inbox Demo.on_create)) ∅)
  = Responded signer_mismatch.
Proof.
  destruct (@listener_requires_verified_sender Demo.externals
              (Demo.signed_post Demo.mallory_key "create-2")
              (Demo.inbox Demo.on_create) ∅)
    as (_ & _ & Hdenied & _).
  apply (Hdenied (mkKey Demo.mallory_key) (Demo.create "2")).
  - reflexivity.
  - vm_compute. reflexivity.
  - discriminate.
  - reflexivity.
Defined.

(** C9: listener resolution walks the class chain of the activity from
    its concrete class, probing the listener map at each level, and the
    first registered hit wins, so that a listener registered for an
    ancestor, [Activity] included, handles the subclasses that have no
    nearer registration; when the walk passes [Activity] without a hit the
    response is 202 with an empty body and no listener is invoked. *)
Theorem nearest_listener_wins `{Externals} (request : Request)
    (p : InboxHandlerParameters.t) (kv : KvStore) :
  let r := run (handleInbox request p) kv in
  let listeners := InboxHandlerParameters.inboxListeners p in
  (forall cls activity threw,
      ListenerCalled cls activity threw ∈ trace r ->
      nearest_registered listeners (constructor activity) = Some cls
      /\ exists listener,
           listeners !! cls = Some listener
           /\ threw = negb (isnull (listener activity)))
  /\ (forall key activity,
        reaches_dispatch request p kv key activity ->
        match nearest_registered listeners (constructor activity) with
        | Some hit =>
            exists threw,
              List.filter is_listener_call (trace r)
              = [ListenerCalled hit activity threw]
        | None =>
            outcome r = Responded accepted_empty
            /\ occurs is_listener_call (trace r) = false
            /\ final r = kv
        end)
  /\ (forall cls hit,
        nearest_registered listeners cls = Some hit <->
        exists before after,
          class_chain cls = before ++ hit :: after
          /\ is_Some (listeners !! hit)
          /\ forall c, c ∈ before -> listeners !! c = None)
  /\ (forall cls,
        nearest_registered listeners cls = None <->
        forall c, c ∈ class_chain cls -> listeners !! c = None)
  /\ (forall cls,
        head (class_chain cls) = Some cls
        /\ last (class_chain cls) = Some Activity)
  /\ (forall name super,
        class_chain (Extends name super)
        = Extends name super :: class_chain super).
Proof.
  intros r listeners.
  split; [|split; [|split; [|split; [|split]]]].
  3: { intros cls hit. apply nearest_registered_first. }
  3: { intros cls. apply nearest_registered_none. }
  3: { intros cls. split; [apply class_chain_head | apply class_chain_last]. }
  3: { reflexivity. }
  all: subst listeners;
    assert (Hr : r = run (handleInbox request p) kv) by reflexivity;
    clearbody r; revert r Hr; inbox_cases p.
  all: intros r ->; simpl.
  all: lazymatch goal with
       | |- forall cls activity threw, _ ∈ _ -> _ =>
           intros ? ? ? Hin; in_trace Hin;
           (split; [assumption | eexists; split; [eassumption|]]);
           repeat match goal with
                  | Heq : ?x = _ |- context [?x] => rewrite Heq
                  end; reflexivity
       | |- _ =>
           intros ? ? (Hdelivered & Hfresh & Hactor & Howner);
           settle_inbox;
           repeat match goal with
                  | Hx : forall k, Some ?c = Some k -> _ |- _ =>
                      specialize (Hx c eq_refl)
                  | Heq : ?x = _ |- context [match ?x with _ => _ end] =>
                      rewrite Heq
                  end;
           try congruence; try done; try (by eexists)
       end.
Qed.

(** An [Announce] is handled by the listener of [Activity] when that is
    the only registration, and accepted without dispatch when only
    [Create] is registered. *)
Lemma nearest_listener_wins_witness :
  (exists threw,
      List.filter is_listener_call
        (trace (run (@handleInbox Demo.externals
                       (Demo.signed_post Demo.bob_key "announce-3")
                       (Demo.inbox Demo.on_activity)) ∅))
      = [ListenerCalled Activity (Demo.announce "3") threw])
  /\ (outcome (run (@handleInbox Demo.externals
                      (Demo.signed_post Demo.bob_key "announce-3")
                      (Demo.inbox Demo.on_create)) ∅)
      = Responded accepted_empty
      /\ occurs is_listener_call
           (trace (run (@handleInbox Demo.externals
                          (Demo.signed_post Demo.bob_key "announce-3")
                          (Demo.inbox Demo.on_create)) ∅)) = false
      /\ final (run (@handleInbox Demo.externals
                       (Demo.signed_post Demo.bob_key "announce-3")
                       (Demo.inbox Demo.on_create)) ∅) = ∅).
Proof.
  assert (Hreach : forall listeners,
             @reaches_dispatch Demo.externals
               (Demo.signed_post Demo.bob_key "announce-3")
               (Demo.inbox listeners) ∅
               (Some (mkKey Demo.bob_key)) (Demo.announce "3")).
  { intros listeners. split; [reflexivity|]. split; [reflexivity|].
    split; [discriminate|]. intros k Hk. injection Hk as <-. reflexivity. }
  split.
  - exact (proj1 (proj2 (@nearest_listener_wins Demo.externals
                           (Demo.signed_post Demo.bob_key "announce-3")
                           (Demo.inbox Demo.on_activity) ∅))
             (Some (mkKey Demo.bob_key)) (Demo.announce "3")
             (Hreach Demo.on_activity)).
  - exact (proj1 (proj2 (@nearest_listener_wins Demo.externals
                           (Demo.signed_post Demo.bob_key "announce-3")
                           (Demo.inbox Demo.on_create) ∅))
             (Some (mkKey Demo.bob_key)) (Demo.announce "3")
             (Hreach Demo.on_create)).
Defined.

(** * The scenarios of the specification, evaluated *)

Example scenario_collection_summary :
  outcome (run (@handleCollection unit Demo.externals
                  (Demo.fetch Demo.summary_url)
                  (Demo.collection Demo.summary_url
                     (Some (Demo.paged (Some (fun _ => CNumber (Num 42))) None))))
             tt)
  = Responded
      (ok_json
         (ECollection
            {| oc_totalItems := Some (Num 42);
               oc_items := None;
               oc_first :=
                 Some (mkURL "https://h/x" [("a", "1"); ("cursor", "c0")] "");
               oc_last :=
                 Some (mkURL "https://h/x" [("a", "1"); ("cursor", "c9")] "")
            |}))
  /\ Demo.serialize (mkURL "https://h/x" [("a", "1"); ("cursor", "c0")] "")
     = "https://h/x?a=1&cursor=c0".
Proof. split; vm_compute; reflexivity. Qed.

Example scenario_inbox_happy_path :
  let r := run (@handleInbox Demo.externals
                  (Demo.signed_post Demo.bob_key "create-2")
                  (Demo.inbox Demo.on_create)) ∅ in
  outcome r = Responded accepted_empty
  /\ map_to_list (final r)
     = [(Demo.key_of "2", mkEntry (VBool true) one_day)]
  /\ trace r
     = [GetActor "alice" true; JsonRead true; ObjectVerified (inr false);
        RequestVerified true; Deserialized true;
        KvGet (Demo.key_of "2") None; OwnershipChecked true;
        ListenerCalled Demo.Create (Demo.create "2") false;
        KvSet (Demo.key_of "2") (VBool true) one_day;
        Logged inbox_logger LevelInfo
          "Activity {activityId} has been processed."].
Proof. repeat split; vm_compute; reflexivity. Qed.

Example scenario_inbox_replay :
  let r := run (@handleInbox Demo.externals
                  (Demo.signed_post Demo.bob_key "create-2")
                  (Demo.inbox Demo.on_create)) Demo.store_with_true in
  outcome r = Responded (already_processed "https://e/a/2")
  /\ map_to_list (final r)
     = [(Demo.key_of "2", mkEntry (VBool true) one_day)]
  /\ trace r
     = [GetActor "alice" true; JsonRead true; ObjectVerified (inr false);
        RequestVerified true; Deserialized true;
        KvGet (Demo.key_of "2") (Some (VBool true));
        Logged inbox_logger LevelDebug
          "Activity {activityId} has already been processed."].
Proof. repeat split; vm_compute; reflexivity. Qed.

Example scenario_inbox_listener_throws :
  let r := run (@handleInbox Demo.externals
                  (Demo.signed_post Demo.bob_key "create-2")
                  (Demo.inbox Demo.failing_create)) ∅ in
  outcome r
  = Responded {| status := 500; headers := text_plain;
                 body := Text "Internal server error." |}
  /\ map_to_list (final r) = []
  /\ trace r
     = [GetActor "alice" true; JsonRead true; ObjectVerified (inr false);
        RequestVerified true; Deserialized true;
        KvGet (Demo.key_of "2") None; OwnershipChecked true;
        ListenerCalled Demo.Create (Demo.create "2") true;
        Logged inbox_logger LevelError
          ("Failed to process the activity:" ++ newline ++ "{error}")%string].
Proof. repeat split; vm_compute; reflexivity. Qed.

Example scenario_inbox_embedded_proof :
  trace (run (@handleInbox Demo.externals (Demo.unsigned_post "proof:create-1")
                (Demo.inbox Demo.on_create)) ∅)
  = [GetActor "alice" true; JsonRead true; ObjectVerified (inr true);
     KvGet (Demo.key_of "1") None;
     ListenerCalled Demo.Create (Demo.create "1") false;
     KvSet (Demo.key_of "1") (VBool true) one_day;
     Logged inbox_logger LevelInfo "Activity {activityId} has been processed."].
Proof. vm_compute. reflexivity. Qed.

Example bigint_to_number_rounds :
  bigint_to_number 42 = Num 42
  /\ bigint_to_number (2 ^ 53 + 1) = Num (2 ^ 53)
  /\ bigint_to_number (2 ^ 53 + 3) = Num (2 ^ 53 + 4)
  /\ bigint_to_number (- (2 ^ 53 + 3)) = Num (- (2 ^ 53 + 4)).
Proof. repeat split; vm_compute; reflexivity. Qed.

(** * Further properties of the inbox *)

(** Starts the case analysis of a run that the statement names [r]. *)
Ltac inbox_run r request p kv :=
  assert (Hr : r = run (handleInbox request p) kv) by reflexivity;
  clearbody r; revert r Hr;
  destruct p as [handle context kvPrefix actorDispatcher inboxListeners
                   inboxErrorHandler onNotFound signatureTimeWindow];
  unfold handleInbox, reaches_dispatch, delivered, cached, idempotency_key,
    recipient_known, error_reports;
  simpl; run_cases; intros r ->; simpl.

Ltac conjuncts := repeat match goal with |- _ /\ _ => split end.

Ltac finish_inbox :=
  settle_inbox; conjuncts; try done; try congruence.

(** Stage 1: without an actor dispatcher, or for a handle that resolves to
    no actor, the inbox answers with [onNotFound] and reads neither the
    body nor the store; the shared inbox (null handle) never resolves an
    actor. *)
Theorem inbox_needs_known_recipient `{Externals} (request : Request)
    (p : InboxHandlerParameters.t) (kv : KvStore) :
  let r := run (handleInbox request p) kv in
  (recipient_known p = false ->
   outcome r = Responded (InboxHandlerParameters.onNotFound p request)
   /\ occurs is_fallback (trace r) = true
   /\ occurs is_body_read (trace r) = false
   /\ occurs is_store_access (trace r) = false
   /\ occurs is_listener_call (trace r) = false
   /\ final r = kv)
  /\ (recipient_known p = true -> occurs is_fallback (trace r) = false)
  /\ (InboxHandlerParameters.handle p = None ->
      occurs is_actor_lookup (trace r) = false)
  /\ (InboxHandlerParameters.actorDispatcher p = None ->
      occurs is_actor_lookup (trace r) = false).
Proof.
  intros r. inbox_run r request p kv.
  all: conjuncts; settle_inbox.
Qed.

Lemma inbox_needs_known_recipient_witness :
  outcome (run (@handleInbox Demo.externals
                  (Demo.signed_post Demo.bob_key "create-2")
                  (Demo.shared_inbox None Demo.on_create)) ∅)
  = Responded Demo.not_found.
Proof.
  apply (proj1 (@inbox_needs_known_recipient Demo.externals
                  (Demo.signed_post Demo.bob_key "create-2")
                  (Demo.shared_inbox None Demo.on_create) ∅)).
  reflexivity.
Defined.

(** Stages 2 and 3: a body that is not JSON is answered 400 "Invalid
    JSON.", a document that the proof verifier rejects with an exception
    is answered 400 "Invalid activity."; in both cases the error handler,
    when configured, is told the error exactly once, and neither the HTTP
    signature, the store nor a listener is consulted. *)
Theorem malformed_delivery_is_rejected `{Externals} (request : Request)
    (p : InboxHandlerParameters.t) (kv : KvStore) :
  let r := run (handleInbox request p) kv in
  recipient_known p = true ->
  (forall error,
      request_json request = inl error ->
      outcome r = Responded invalid_json
      /\ List.filter is_error_report (trace r)
         = error_reports (InboxHandlerParameters.inboxErrorHandler p) error
      /\ occurs is_proof_check (trace r) = false
      /\ occurs is_signature_check (trace r) = false
      /\ occurs is_store_access (trace r) = false
      /\ occurs is_listener_call (trace r) = false
      /\ final r = kv)
  /\ (forall json error,
      request_json request = inr json ->
      verifyObject json = inl error ->
      outcome r = Responded invalid_activity
      /\ List.filter is_error_report (trace r)
         = error_reports (InboxHandlerParameters.inboxErrorHandler p) error
      /\ occurs is_signature_check (trace r) = false
      /\ occurs is_store_access (trace r) = false
      /\ occurs is_listener_call (trace r) = false
      /\ final r = kv).
Proof.
  intros r. inbox_run r request p kv.
  all: intros Hknown; conjuncts; settle_inbox.
  all: conjuncts; settle_inbox.
Qed.

Lemma malformed_delivery_is_rejected_witness :
  outcome (run (@handleInbox Demo.externals
                  (Demo.signed_post Demo.bob_key "")
                  (Demo.reporting Demo.on_create)) ∅)
  = Responded invalid_json
  /\ List.filter is_error_report
       (trace (run (@handleInbox Demo.externals
                      (Demo.unsigned_post "proof:malformed")
                      (Demo.reporting Demo.on_create)) ∅))
     = [ErrorHandled "TypeError"].
Proof.
  split.
  - apply (proj1 (@malformed_delivery_is_rejected Demo.externals
                    (Demo.signed_post Demo.bob_key "")
                    (Demo.reporting Demo.on_create) ∅ eq_refl)
             "SyntaxError" eq_refl).
  - apply (proj2 (@malformed_delivery_is_rejected Demo.externals
                    (Demo.unsigned_post "proof:malformed")
                    (Demo.reporting Demo.on_create) ∅ eq_refl)
             (JsonDocument "proof:malformed") "TypeError" eq_refl eq_refl).
Defined.

(** Stage 4: a document without verified proof whose request carries no
    valid HTTP signature is answered 401 "Failed to verify the request
    signature."; it is never deserialized, the error handler is not told,
    and neither the store nor a listener is consulted. *)
Theorem unverified_delivery_is_refused `{Externals} (request : Request)
    (p : InboxHandlerParameters.t) (kv : KvStore) json :
  let r := run (handleInbox request p) kv in
  recipient_known p = true ->
  request_json request = inr json ->
  verifyObject json = inr None ->
  verifyRequest request (InboxHandlerParameters.signatureTimeWindow p) = None ->
  outcome r = Responded unverified_signature
  /\ occurs is_deserialization (trace r) = false
  /\ occurs is_error_report (trace r) = false
  /\ occurs is_store_access (trace r) = false
  /\ occurs is_listener_call (trace r) = false
  /\ final r = kv.
Proof.
  intros r. revert json. inbox_run r request p kv.
  all: intros json' Hknown Hjson Hproof Hsig; settle_inbox.
Qed.

Lemma unverified_delivery_is_refused_witness :
  outcome (run (@handleInbox Demo.externals (Demo.unsigned_post "create-2")
                  (Demo.inbox Demo.on_create)) ∅)
  = Responded unverified_signature.
Proof.
  apply (@unverified_delivery_is_refused Demo.externals
           (Demo.unsigned_post "create-2") (Demo.inbox Demo.on_create) ∅
           (JsonDocument "create-2") eq_refl eq_refl eq_refl eq_refl).
Defined.

(** An exception of [Activity.fromJsonLd] is not caught: after a valid
    HTTP signature, a document that the deserializer rejects makes
    [handleInbox] itself reject with that error, without a response and
    without telling the error handler. *)
Theorem deserializer_exception_escapes `{Externals} (request : Request)
    (p : InboxHandlerParameters.t) (kv : KvStore) json key error :
  let r := run (handleInbox request p) kv in
  recipient_known p = true ->
  request_json request = inr json ->
  verifyObject json = inr None ->
  verifyRequest request (InboxHandlerParameters.signatureTimeWindow p)
  = Some key ->
  fromJsonLd json = inl error ->
  outcome r = Rejected error
  /\ occurs is_error_report (trace r) = false
  /\ occurs is_store_access (trace r) = false
  /\ occurs is_listener_call (trace r) = false
  /\ final r = kv.
Proof.
  intros r. revert json key error. inbox_run r request p kv.
  all: intros json' key' error' Hknown Hjson Hproof Hsig Hfrom; finish_inbox.
Qed.

Lemma deserializer_exception_escapes_witness :
  outcome (run (@handleInbox Demo.externals
                  (Demo.signed_post Demo.bob_key "not an activity")
                  (Demo.reporting Demo.on_create)) ∅)
  = Rejected "TypeError".
Proof.
  apply (@deserializer_exception_escapes Demo.externals
           (Demo.signed_post Demo.bob_key "not an activity")
           (Demo.reporting Demo.on_create) ∅
           (JsonDocument "not an activity") (mkKey Demo.bob_key) "TypeError"
           eq_refl eq_refl eq_refl eq_refl eq_refl).
Defined.

(** Stage 6 comes after the idempotency check: a delivered activity
    without actor, not yet recorded, is answered 400 "Missing actor." once
    the store has been asked about its id; the ownership of the signing
    key is not checked and no listener runs. *)
Theorem actorless_activity_is_rejected `{Externals} (request : Request)
    (p : InboxHandlerParameters.t) (kv : KvStore) key activity :
  let r := run (handleInbox request p) kv in
  delivered request p = Some (key, activity) ->
  strictly_true (cached (InboxHandlerParameters.kvPrefix p) kv activity)
  = false ->
  activity_actorId activity = None ->
  outcome r = Responded missing_actor
  /\ occurs is_store_query (trace r) = negb (isnull (activity_id activity))
  /\ occurs is_ownership_check (trace r) = false
  /\ occurs is_listener_call (trace r) = false
  /\ occurs is_error_report (trace r) = false
  /\ final r = kv.
Proof.
  intros r. revert key activity. inbox_run r request p kv.
  all: intros key' activity' Hdelivered Hfresh Hactor; finish_inbox.
  all: repeat match goal with
              | Heq : ?x = _ |- context [?x] => rewrite Heq
              end; try done.
Qed.

Lemma actorless_activity_is_rejected_witness :
  outcome (run (@handleInbox Demo.lenient
                  (Demo.signed_post Demo.bob_key "actorless")
                  (Demo.inbox Demo.on_create)) ∅)
  = Responded missing_actor.
Proof.
  apply (@actorless_activity_is_rejected Demo.lenient
           (Demo.signed_post Demo.bob_key "actorless")
           (Demo.inbox Demo.on_create) ∅ (Some (mkKey Demo.bob_key))
           (mkActivity Demo.Create (Some (Demo.iri "https://e/a/9")) None)).
  - reflexivity.
  - vm_compute. reflexivity.
  - reflexivity.
Defined.

(** Stage 9: when the chosen listener throws, the inbox answers 500
    "Internal server error.", tells the error handler (when configured)
    the error once, and records nothing: the store is left as it was, so
    that the same delivery, made again, runs exactly as the first time. *)
Theorem failed_listener_is_not_recorded `{Externals} (request : Request)
    (p : InboxHandlerParameters.t) (kv : KvStore) key activity hit listener
    error :
  let r := run (handleInbox request p) kv in
  reaches_dispatch request p kv key activity ->
  nearest_registered (InboxHandlerParameters.inboxListeners p)
    (constructor activity) = Some hit ->
  InboxHandlerParameters.inboxListeners p !! hit = Some listener ->
  listener activity = Some error ->
  outcome r = Responded internal_error
  /\ List.filter is_listener_call (trace r)
     = [ListenerCalled hit activity true]
  /\ List.filter is_error_report (trace r)
     = error_reports (InboxHandlerParameters.inboxErrorHandler p) error
  /\ occurs is_commit (trace r) = false
  /\ final r = kv
  /\ run (handleInbox request p) (final r) = r.
Proof.
  intros r Hreach Hnearest Hlistener Hthrows.
  assert (Hmain :
    outcome r = Responded internal_error
    /\ List.filter is_listener_call (trace r)
       = [ListenerCalled hit activity true]
    /\ List.filter is_error_report (trace r)
       = error_reports (InboxHandlerParameters.inboxErrorHandler p) error
    /\ occurs is_commit (trace r) = false
    /\ final r = kv).
  { revert key activity hit listener error Hreach Hnearest Hlistener Hthrows.
    inbox_run r request p kv.
    all: intros ? ? ? ? ? (Hd & Hfresh & Hactor & Howner) Hn Hl Ht.
    all: finish_inbox.
    all: repeat match goal with
                | Hx : forall k, Some ?c = Some k -> _ |- _ =>
                    specialize (Hx c eq_refl)
                end; try congruence. }
  destruct Hmain as (Hout & Hcall & Hreport & Hcommit & Hfinal).
  conjuncts; try assumption.
  rewrite Hfinal. reflexivity.
Qed.

Lemma failed_listener_is_not_recorded_witness :
  outcome (run (@handleInbox Demo.externals
                  (Demo.signed_post Demo.bob_key "create-2")
                  (Demo.reporting Demo.failing_create)) ∅)
  = Responded internal_error
  /\ List.filter is_error_report
       (trace (run (@handleInbox Demo.externals
                      (Demo.signed_post Demo.bob_key "create-2")
                      (Demo.reporting Demo.failing_create)) ∅))
     = [ErrorHandled "listener failed"].
Proof.
  destruct (@failed_listener_is_not_recorded Demo.externals
              (Demo.signed_post Demo.bob_key "create-2")
              (Demo.reporting Demo.failing_create) ∅
              (Some (mkKey Demo.bob_key)) (Demo.create "2") Demo.Create
              (fun _ => Some "listener failed") "listener failed")
    as (Hout & _ & Hreport & _).
  - split; [reflexivity|]. split; [vm_compute; reflexivity|].
    split; [discriminate|]. intros k Hk. injection Hk as <-. reflexivity.
  - vm_compute. reflexivity.
  - vm_compute. reflexivity.
  - reflexivity.
  - split; assumption.
Defined.

(** Without an id there is no deduplication: the store is neither asked
    nor written, whatever the delivery turns out to be, so that the same
    delivery, made again, runs exactly as the first time. *)
Theorem anonymous_activity_is_not_deduplicated `{Externals}
    (request : Request) (p : InboxHandlerParameters.t) (kv : KvStore)
    key activity :
  let r := run (handleInbox request p) kv in
  delivered request p = Some (key, activity) ->
  activity_id activity = None ->
  occurs is_store_access (trace r) = false
  /\ final r = kv
  /\ run (handleInbox request p) (final r) = r
  /\ (forall kv' : KvStore,
        outcome (run (handleInbox request p) kv') = outcome r
        /\ trace (run (handleInbox request p) kv') = trace r).
Proof.
  intros r Hdelivered Hid.
  assert (Hmain :
    forall kv' : KvStore,
      occurs is_store_access (trace (run (handleInbox request p) kv')) = false
      /\ final (run (handleInbox request p) kv') = kv'
      /\ outcome (run (handleInbox request p) kv') = outcome r
      /\ trace (run (handleInbox request p) kv') = trace r).
  { intros kv'.
    revert key activity Hdelivered Hid.
    assert (Hr : r = run (handleInbox request p) kv) by reflexivity.
    clearbody r. revert r Hr.
    destruct p as [handle context kvPrefix actorDispatcher inboxListeners
                     inboxErrorHandler onNotFound signatureTimeWindow].
    unfold handleInbox, delivered.
    simpl. run_cases. all: intros r ->; simpl.
    all: intros ? ? Hd Hid; finish_inbox. }
  destruct (Hmain kv) as (Hnone & Hfinal & _ & _).
  conjuncts; try assumption.
  - unfold r. rewrite Hfinal. reflexivity.
  - intros kv'. destruct (Hmain kv') as (_ & _ & Hout & Htrace). by split.
Qed.

Lemma anonymous_activity_is_not_deduplicated_witness :
  let r := run (@handleInbox Demo.lenient
                  (Demo.signed_post Demo.bob_key "anonymous")
                  (Demo.inbox Demo.on_create)) ∅ in
  occurs is_store_access (trace r) = false
  /\ run (@handleInbox Demo.lenient
            (Demo.signed_post Demo.bob_key "anonymous")
            (Demo.inbox Demo.on_create)) (final r) = r
  /\ occurs is_listener_call (trace r) = true.
Proof.
  cbv zeta.
  destruct (@anonymous_activity_is_not_deduplicated Demo.lenient
              (Demo.signed_post Demo.bob_key "anonymous")
              (Demo.inbox Demo.on_create) ∅ (Some (mkKey Demo.bob_key))
              (mkActivity Demo.Create None (Some Demo.bob)) eq_refl eq_refl)
    as (Hnone & _ & Hagain & _).
  split; [exact Hnone|]. split; [exact Hagain|]. vm_compute. reflexivity.
Defined.

(** The store is written at one key at most: every key at which no commit
    occurs holds after the request what it held before; in particular the
    record of an activity is not disturbed by a delivery of an activity
    with another id. *)
Theorem inbox_writes_one_key `{Externals} (request : Request)
    (p : InboxHandlerParameters.t) (kv : KvStore) :
  let r := run (handleInbox request p) kv in
  (forall key,
      (forall value ttl, KvSet key value ttl ∉ trace r) ->
      final r !! key = kv !! key)
  /\ (forall key value ttl,
        KvSet key value ttl ∈ trace r ->
        exists signer activity,
          delivered request p = Some (signer, activity)
          /\ idempotency_key (InboxHandlerParameters.kvPrefix p) activity
             = Some key)
  /\ (forall signer activity other,
        delivered request p = Some (signer, activity) ->
        (forall id id', activity_id activity = Some id ->
                        activity_id other = Some id' -> href id <> href id') ->
        cached (InboxHandlerParameters.kvPrefix p) (final r) other
        = cached (InboxHandlerParameters.kvPrefix p) kv other).
Proof.
  intros r. inbox_run r request p kv.
  all: conjuncts.
  all: lazymatch goal with
       | |- forall key, (forall value ttl, _ ∉ _) -> _ =>
           intros key Hnone;
           first
             [ reflexivity
             | rewrite lookup_insert_ne;
               [ reflexivity
               | intros <-; eapply Hnone; find_event ] ]
       | |- forall key value ttl, _ ∈ _ -> _ =>
           intros key value ttl Hin; in_trace Hin;
           (eexists _, _;
            (split;
             [ reflexivity
             | simpl; repeat match goal with
                             | Heq : ?x = _ |- context [?x] => rewrite Heq
                             end; reflexivity ]))
       | |- _ =>
           intros signer activity' other Hd Hne; simplify_eq;
           first
             [ reflexivity
             | destruct (activity_id other) as [id'|] eqn:Hother; simpl;
               first
                 [ reflexivity
                 | rewrite lookup_insert_ne;
                   [ reflexivity
                   | intros Heq; apply app_inj_tail in Heq as [_ Heq];
                     eapply Hne; eauto ] ] ]
       end.
Qed.

Lemma inbox_writes_one_key_witness :
  final (run (@handleInbox Demo.externals
                (Demo.signed_post Demo.bob_key "create-1")
                (Demo.inbox Demo.on_create)) Demo.store_with_one)
    !! Demo.key_of "2"
  = Some (mkEntry (VNumber (Num 1)) one_day).
Proof.
  rewrite (proj1 (@inbox_writes_one_key Demo.externals
                    (Demo.signed_post Demo.bob_key "create-1")
                    (Demo.inbox Demo.on_create) Demo.store_with_one)
             (Demo.key_of "2")).
  - vm_compute. reflexivity.
  - intros value ttl Hin. vm_compute in Hin. in_trace Hin.
Defined.

(** Proves that a list of stages whose elements are known increases. *)
Ltac increasing :=
  repeat first
    [ apply SSorted_nil
    | apply SSorted_cons
    | apply Forall_nil_2
    | apply Forall_cons_2
    | lia ].

(** The collaborators of the inbox are called in the order of the stages,
    each at most once per request: actor lookup, body, embedded proof,
    HTTP signature, deserializer, store query, key ownership, listener,
    commit; the error handler comes last, after the failure it is told. *)
Theorem inbox_calls_follow_the_stages `{Externals} (request : Request)
    (p : InboxHandlerParameters.t) (kv : KvStore) :
  StronglySorted lt (omap stage (trace (run (handleInbox request p) kv))).
Proof.
  destruct p as [handle context kvPrefix actorDispatcher inboxListeners
                   inboxErrorHandler onNotFound signatureTimeWindow].
  unfold handleInbox. run_cases.
  all: increasing.
Qed.

(** The responses of the inbox form a closed set: apart from the
    caller's [onNotFound], a response is one of the seven fixed plain-text
    responses (202 empty, 400 invalid JSON, 400 invalid activity, 400
    missing actor, 401 unverified signature, 401 signer mismatch, 500) or
    the 202 that names the delivered activity as already processed. *)
Theorem inbox_responses_are_closed `{Externals} (request : Request)
    (p : InboxHandlerParameters.t) (kv : KvStore) :
  let r := run (handleInbox request p) kv in
  forall response,
    outcome r = Responded response ->
    occurs is_fallback (trace r) = false ->
    response ∈ inbox_responses
    \/ exists signer activity id,
         delivered request p = Some (signer, activity)
         /\ activity_id activity = Some id
         /\ response = already_processed (href id).
Proof.
  intros r. inbox_run r request p kv.
  all: intros response Hout Hfb; simplify_eq;
    try first
      [ solve [left; unfold inbox_responses; find_event]
      | right; eexists _, _, _;
        (split; [reflexivity|]); (split; [eassumption|]);
        reflexivity ].
Qed.

Lemma inbox_responses_are_closed_witness :
  signer_mismatch ∈ inbox_responses
  \/ exists signer activity id,
       @delivered Demo.externals
         (Demo.signed_post Demo.mallory_key "create-2")
         (Demo.inbox Demo.on_create) = Some (signer, activity)
       /\ activity_id activity = Some id
       /\ signer_mismatch = already_processed (@href Demo.externals id).
Proof.
  apply (@inbox_responses_are_closed Demo.externals
           (Demo.signed_post Demo.mallory_key "create-2")
           (Demo.inbox Demo.on_create) ∅).
  - vm_compute. reflexivity.
  - vm_compute. reflexivity.
Defined.

(** An embedded proof replaces the HTTP signature: when the proof verifier
    returns an activity, the request signature is not examined and the
    document is not deserialized a second time; the signature is examined
    only after the proof verifier returned null. *)
Theorem embedded_proof_replaces_http_signature `{Externals}
    (request : Request) (p : InboxHandlerParameters.t) (kv : KvStore) :
  let r := run (handleInbox request p) kv in
  (occurs is_proof_verified (trace r) = true ->
   occurs is_signature_check (trace r) = false
   /\ occurs is_deserialization (trace r) = false)
  /\ (occurs is_signature_check (trace r) = true ->
      ObjectVerified (inr false) ∈ trace r)
  /\ preceded_by is_proof_check is_signature_check (trace r)
  /\ preceded_by is_signature_verified is_deserialization (trace r).
Proof.
  intros r. inbox_run r request p kv.
  all: conjuncts; try order; try done.
  all: intros _; find_event.
Qed.

Lemma embedded_proof_replaces_http_signature_witness :
  occurs is_signature_check
    (trace (run (@handleInbox Demo.externals
                   (Demo.unsigned_post "proof:create-1")
                   (Demo.inbox Demo.on_create)) ∅)) = false.
Proof.
  apply (proj1 (@embedded_proof_replaces_http_signature Demo.externals
                  (Demo.unsigned_post "proof:create-1")
                  (Demo.inbox Demo.on_create) ∅)).
  vm_compute. reflexivity.
Defined.

(** * Further properties of the responders *)

(** Fixes whether the item projector warned. *)
Ltac fix_warning :=
  unfold filtering_trace;
  repeat match goal with
         | |- context [negb false && existsb ?f ?l] =>
             destruct (existsb f l); simpl
         end.

(** The signature of the request is looked at only to authorize: without
    an authorization predicate the responders resolve neither the signed
    key nor its owner; with one, they do so only after the negotiation
    succeeded, and the predicate is then called. *)
Theorem signed_key_is_resolved_only_to_authorize :
  (forall (E : Externals) St (s : St) request p,
      let t := trace (run (handleActor request p) s) in
      (ActorHandlerParameters.authorizePredicate p = None ->
       occurs is_key_lookup t = false /\ occurs is_authorization t = false)
      /\ preceded_by is_negotiation_success is_key_lookup t
      /\ never_followed_by is_authorization is_key_lookup t
      /\ occurs is_key_lookup t = occurs is_authorization t)
  /\ (forall (E : Externals) St (s : St) request p,
      let t := trace (run (handleObject request p) s) in
      (ObjectHandlerParameters.authorizePredicate p = None ->
       occurs is_key_lookup t = false /\ occurs is_authorization t = false)
      /\ preceded_by is_negotiation_success is_key_lookup t
      /\ never_followed_by is_authorization is_key_lookup t
      /\ occurs is_key_lookup t = occurs is_authorization t)
  /\ (forall (E : Externals) St (s : St) request p,
      let t := trace (run (handleCollection request p) s) in
      (forall callbacks,
          CollectionHandlerParameters.collectionCallbacks p = Some callbacks ->
          CollectionCallbacks.authorizePredicate callbacks = None ->
          occurs is_key_lookup t = false /\ occurs is_authorization t = false)
      /\ preceded_by is_negotiation_success is_key_lookup t
      /\ never_followed_by is_authorization is_key_lookup t
      /\ occurs is_key_lookup t = occurs is_authorization t).
Proof.
  split; [|split].
  - intros E St s request [handle context ad ap onU onNF onNA] t.
    assert (Ht : t = trace (run (handleActor request
                   (ActorHandlerParameters.mk handle context ad ap onU onNF
                      onNA)) s)) by reflexivity.
    clearbody t. revert t Ht. unfold handleActor. run_cases.
    all: intros ? ->; simpl; conjuncts; try order; try done.
  - intros E St s request [values context od ap onU onNF onNA] t.
    assert (Ht : t = trace (run (handleObject request
                   (ObjectHandlerParameters.mk values context od ap onU onNF
                      onNA)) s)) by reflexivity.
    clearbody t. revert t Ht. unfold handleObject. run_cases.
    all: intros ? ->; simpl; conjuncts; try order; try done.
  - intros E St s request [name handle filter fp context cbs onU onNF onNA] t.
    assert (Ht : t = trace (run (handleCollection request
                   (CollectionHandlerParameters.mk name handle filter fp
                      context cbs onU onNF onNA)) s)) by reflexivity.
    clearbody t. revert t Ht. unfold handleCollection. run_cases.
    all: intros ? ->; simpl; fix_warning; conjuncts; try order; try done.
    all: intros; simplify_eq; simpl in *; by simplify_eq.
Qed.

Lemma signed_key_is_resolved_only_to_authorize_witness :
  occurs is_key_lookup
    (trace (run (@handleActor unit Demo.externals
                   (Demo.fetch (Demo.iri "https://h/users/alice"))
                   (Demo.actor (Some (fun _ => None)) None "alice")) tt))
  = false.
Proof.
  destruct signed_key_is_resolved_only_to_authorize as (Hactor & _ & _).
  apply (proj1 (Hactor Demo.externals unit tt
                  (Demo.fetch (Demo.iri "https://h/users/alice"))
                  (Demo.actor (Some (fun _ => None)) None "alice"))).
  reflexivity.
Defined.

(** What a responder serves when it does not fall back: the actor that
    the context resolved, the object that the dispatcher returned, a page
    for a request with a cursor and a collection for one without; as a 200
    with [Vary: Accept] whose serialization is the last thing done. *)
Theorem responders_serve_the_dispatched_entity :
  (forall (E : Externals) St (s : St) request p response,
      let r := run (handleActor request p) s in
      outcome r = Responded response ->
      occurs is_fallback (trace r) = false ->
      exists actor,
        getActor (ActorHandlerParameters.context p)
          (ActorHandlerParameters.handle p) = Some actor
        /\ response = ok_json (EActor actor)
        /\ header "Vary" (headers response) = Some "Accept"
        /\ last (trace r) = Some (ToJsonLd (EActor actor))
        /\ final r = s)
  /\ (forall (E : Externals) St (s : St) request p response,
      let r := run (handleObject request p) s in
      outcome r = Responded response ->
      occurs is_fallback (trace r) = false ->
      exists dispatcher object,
        ObjectHandlerParameters.objectDispatcher p = Some dispatcher
        /\ dispatcher (ObjectHandlerParameters.values p) = Some object
        /\ response = ok_json (EObject object)
        /\ header "Vary" (headers response) = Some "Accept"
        /\ last (trace r) = Some (ToJsonLd (EObject object))
        /\ final r = s)
  /\ (forall (E : Externals) St (s : St) request p response,
      let r := run (handleCollection request p) s in
      outcome r = Responded response ->
      occurs is_fallback (trace r) = false ->
      exists entity,
        response = ok_json entity
        /\ header "Vary" (headers response) = Some "Accept"
        /\ last (trace r) = Some (ToJsonLd entity)
        /\ final r = s
        /\ match SearchParams.get "cursor" (searchParams (req_url request)) with
           | Some _ => exists page, entity = ECollectionPage page
           | None => exists collection, entity = ECollection collection
           end).
Proof.
  split; [|split].
  - intros E St s request [handle context ad ap onU onNF onNA] response r.
    assert (Hr : r = run (handleActor request
                   (ActorHandlerParameters.mk handle context ad ap onU onNF
                      onNA)) s) by reflexivity.
    clearbody r. revert r Hr. unfold handleActor. run_cases.
    all: intros ? ->; simpl; intros Hout Hfb; simplify_eq.
    all: eexists; conjuncts; (reflexivity || eassumption).
  - intros E St s request [values context od ap onU onNF onNA] response r.
    assert (Hr : r = run (handleObject request
                   (ObjectHandlerParameters.mk values context od ap onU onNF
                      onNA)) s) by reflexivity.
    clearbody r. revert r Hr. unfold handleObject. run_cases.
    all: intros ? ->; simpl; intros Hout Hfb; simplify_eq.
    all: eexists _, _; conjuncts; (reflexivity || eassumption).
  - intros E St s request [name handle filter fp context cbs onU onNF onNA]
      response r.
    assert (Hr : r = run (handleCollection request
                   (CollectionHandlerParameters.mk name handle filter fp
                      context cbs onU onNF onNA)) s) by reflexivity.
    clearbody r. revert r Hr. unfold handleCollection. run_cases.
    all: intros ? ->; simpl; fix_warning.
    all: intros Hout Hfb; simplify_eq.
    all: eexists; conjuncts; try reflexivity; by eexists.
Qed.

Lemma responders_serve_the_dispatched_entity_witness :
  exists actor,
    getActor (Demo.context (Demo.iri "https://h/users/alice")) "alice"
    = Some actor
    /\ ok_json (EActor Demo.alice) = ok_json (EActor actor)
    /\ header "Vary" (headers (ok_json (EActor Demo.alice))) = Some "Accept"
    /\ last (trace (run (@handleActor unit Demo.externals
                           (Demo.fetch (Demo.iri "https://h/users/alice"))
                           (Demo.actor (Some (fun _ => None)) None "alice"))
                      tt))
       = Some (ToJsonLd (EActor actor))
    /\ final (run (@handleActor unit Demo.externals
                     (Demo.fetch (Demo.iri "https://h/users/alice"))
                     (Demo.actor (Some (fun _ => None)) None "alice")) tt)
       = tt.
Proof.
  destruct responders_serve_the_dispatched_entity as (Hactor & _ & _).
  apply (Hactor Demo.externals unit tt
           (Demo.fetch (Demo.iri "https://h/users/alice"))
           (Demo.actor (Some (fun _ => None)) None "alice")
           (ok_json (EActor Demo.alice))).
  - reflexivity.
  - reflexivity.
Defined.

(** * Further properties of collections *)

Lemma projected_app fp l1 l2 :
  projected fp (l1 ++ l2) = projected fp l1 ++ projected fp l2.
Proof. unfold projected. apply omap_app. Qed.

Lemma projected_elem_of fp items m :
  m ∈ projected fp items <->
  exists item, item ∈ items /\ filtered_out fp item = false
               /\ mapItem item = Some m.
Proof.
  unfold projected. rewrite list_elem_of_omap. split.
  - intros (item & Hin & Hm). exists item. split; [done|].
    destruct (filtered_out fp item); [done | by split].
  - intros (item & Hin & Hf & Hm). exists item. split; [done|].
    by rewrite Hf.
Qed.

Lemma projected_cons fp item rest :
  projected fp (item :: rest)
  = match (if filtered_out fp item then None else mapItem item) with
    | Some m => m :: projected fp rest
    | None => projected fp rest
    end.
Proof. reflexivity. Qed.

Lemma projected_length fp items :
  (length (projected fp items) <= length items)%nat.
Proof.
  induction items as [|item rest IH]; [reflexivity|].
  rewrite projected_cons.
  destruct (if filtered_out fp item then None else mapItem item); simpl; lia.
Qed.

(** [filterCollectionItems] always returns, leaves the state alone, and
    returns, in the order of the input, the projections of the items that
    have one and that the predicate does not reject; nothing is lost when
    there is no predicate and every item is an object, a link, a URL or
    has an id. *)
Theorem filterCollectionItems_keeps_accepted_items {St} (s : St)
    (items : list Item) (collectionName : string)
    (filterPredicate : option (Item -> bool)) :
  exists result t,
    filterCollectionItems items collectionName filterPredicate s
    = (Next result, s, t)
    /\ result = omap (fun item => if filtered_out filterPredicate item
                                  then None else mapItem item) items
    /\ (forall m,
          m ∈ result <->
          exists item, item ∈ items
                       /\ filtered_out filterPredicate item = false
                       /\ mapItem item = Some m)
    /\ (length result <= length items)%nat
    /\ (filterPredicate = None ->
        forallb projects items = true ->
        length result = length items).
Proof.
  eexists _, _. split; [apply filterCollectionItems_run|].
  split; [reflexivity|]. split; [apply projected_elem_of|].
  split; [apply projected_length|].
  intros -> Hall. fold (projected None items).
  induction items as [|item rest IH]; [reflexivity|].
  simpl in Hall. apply andb_prop in Hall as [Hitem Hrest].
  unfold projects in Hitem. rewrite projected_cons. simpl.
  destruct (mapItem item); [|discriminate Hitem].
  simpl. by rewrite IH.
Qed.

Lemma filterCollectionItems_keeps_accepted_items_witness :
  exists result t,
    filterCollectionItems (St := unit) Demo.mixed_items "outbox"
      (Some Demo.only_urls) tt
    = (Next result, tt, t)
    /\ result = [MURL Demo.u1].
Proof.
  destruct (filterCollectionItems_keeps_accepted_items tt Demo.mixed_items
              "outbox" (Some Demo.only_urls))
    as (result & t & Hrun & Hresult & _).
  exists result, t. split; [exact Hrun|]. rewrite Hresult. reflexivity.
Defined.

(** The filtering warning: [filterCollectionItems] logs nothing but the
    warning of the collection, at most once, and exactly when the
    predicate rejects an item that has a projection; without a predicate
    it logs nothing, and an item with a null id never causes it. *)
Theorem filtering_warns_once {St} (s : St) (items : list Item)
    (collectionName : string) (filterPredicate : option (Item -> bool)) :
  exists result t,
    filterCollectionItems items collectionName filterPredicate s
    = (Next result, s, t)
    /\ (t = [] \/ t = [Logged ["fedify"; "federation"; "collection"]
                        LevelWarning (filtering_warning collectionName)])
    /\ (t <> [] <->
        exists item, item ∈ items /\ projects item = true
                     /\ filtered_out filterPredicate item = true)
    /\ (filterPredicate = None -> t = [])
    /\ (forallb (fun item => negb (projects item)) items = true -> t = []).
Proof.
  eexists _, _. split; [apply filterCollectionItems_run|].
  unfold filtering_trace. simpl.
  assert (Hex : existsb (omitted filterPredicate) items = true <->
                exists item, item ∈ items /\ projects item = true
                             /\ filtered_out filterPredicate item = true).
  { rewrite existsb_exists. unfold omitted, projects. split.
    - intros (item & Hin & Hom). apply andb_prop in Hom as [? ?].
      exists item. by rewrite <- list_elem_of_In in Hin.
    - intros (item & Hin & Hp & Hf). exists item.
      rewrite <- list_elem_of_In. split; [done|]. by rewrite Hp, Hf. }
  destruct (existsb (omitted filterPredicate) items) eqn:Hom.
  - split; [by right|]. split; [|split].
    + split; [intros _; by apply Hex | done].
    + intros ->. destruct (proj1 Hex eq_refl) as (item & _ & _ & Hf).
      discriminate Hf.
    + intros Hnone. destruct (proj1 Hex eq_refl) as (item & Hin & Hp & _).
      rewrite forallb_forall in Hnone. apply list_elem_of_In in Hin.
      specialize (Hnone item Hin). by rewrite Hp in Hnone.
  - split; [by left|]. split; [|split]; try done.
    split; [done|]. intros Hitem. apply Hex in Hitem. discriminate Hitem.
Qed.

Lemma filtering_warns_once_witness :
  exists result t,
    filterCollectionItems (St := unit)
      [ItemRecipient None; ItemRecipient None] "followers"
      (Some (fun _ => false)) tt
    = (Next result, tt, t)
    /\ t = [].
Proof.
  destruct (filtering_warns_once tt [ItemRecipient None; ItemRecipient None]
              "followers" (Some (fun _ => false)))
    as (result & t & Hrun & _ & _ & _ & Hsilent).
  exists result, t. split; [exact Hrun|]. apply Hsilent. reflexivity.
Defined.

Lemma projected_filter_projects fp items :
  projected fp (List.filter projects items) = projected fp items.
Proof.
  induction items as [|item rest IH]; [reflexivity|].
  rewrite (projected_cons fp item rest).
  cbn [List.filter]. unfold projects at 1.
  destruct (mapItem item) eqn:Hm; cbn [isnull negb].
  - by rewrite projected_cons, Hm, IH.
  - rewrite IH. by destruct (filtered_out fp item).
Qed.

Lemma omitted_filter_projects fp items :
  existsb (omitted fp) (List.filter projects items)
  = existsb (omitted fp) items.
Proof.
  induction items as [|item rest IH]; [reflexivity|].
  cbn [List.filter existsb]. unfold projects at 1, omitted at 2.
  destruct (mapItem item) eqn:Hm; cbn [isnull negb andb orb existsb].
  - rewrite IH. unfold omitted at 1. by rewrite Hm.
  - exact IH.
Qed.

(** Items with a null id are invisible: removing them from the input
    changes neither the result nor the log of [filterCollectionItems];
    and the result of a concatenation is the concatenation of the
    results. *)
Theorem filterCollectionItems_ignores_items_without_id {St} (s : St)
    (items more : list Item) (collectionName : string)
    (filterPredicate : option (Item -> bool)) :
  filterCollectionItems (List.filter projects items) collectionName
    filterPredicate s
  = filterCollectionItems items collectionName filterPredicate s
  /\ (exists t,
        filterCollectionItems (items ++ more) collectionName filterPredicate s
        = (Next (projected filterPredicate items
                 ++ projected filterPredicate more), s, t)
        /\ (length t <= 1)%nat).
Proof.
  split.
  - rewrite !filterCollectionItems_run. unfold filtering_trace.
    by rewrite projected_filter_projects, omitted_filter_projects.
  - eexists. rewrite filterCollectionItems_run, projected_app.
    split; [reflexivity | apply filtering_trace_length].
Qed.

Ltac collection_run r request p s :=
  assert (Hr : r = run (handleCollection request p) s) by reflexivity;
  clearbody r; revert r Hr;
  destruct p as [name handle filter filterPredicate context cbs onUnauthorized
                   onNotFound onNotAcceptable];
  unfold handleCollection, collection_authorized, requested_page;
  simpl; run_cases; intros r ->; simpl; fix_warning.

(** A collection that offers no cursors is served inline: for a request
    without cursor whose [firstCursor] callback is absent or answers null,
    the dispatcher is asked for the null cursor and the emitted
    [OrderedCollection] embeds the projected items, has neither [first]
    nor [last], and has [totalItems] null when the counter is absent or
    answers null and the counter's number otherwise; [lastCursor] is not
    called. *)
Theorem collection_without_cursors_is_inlined `{Externals} {St} (s : St)
    (request : Request) (p : CollectionHandlerParameters.t) callbacks page :
  let r := run (handleCollection request p) s in
  let totalItems :=
    match CollectionCallbacks.counter callbacks with
    | Some counter => counter (CollectionHandlerParameters.handle p)
    | None => CUndefined
    end in
  CollectionHandlerParameters.collectionCallbacks p = Some callbacks ->
  SearchParams.get "cursor" (searchParams (req_url request)) = None ->
  match CollectionCallbacks.firstCursor callbacks with
  | Some firstCursor => firstCursor (CollectionHandlerParameters.handle p)
  | None => None
  end = None ->
  CollectionCallbacks.dispatcher callbacks
    (CollectionHandlerParameters.handle p) None
    (CollectionHandlerParameters.filter p) = Some page ->
  acceptsJsonLd request = true ->
  collection_authorized p callbacks ->
  outcome r
  = Responded
      (ok_json
         (ECollection
            {| oc_totalItems :=
                 match totalItems with
                 | CUndefined | CNull => None
                 | _ => Some (Number totalItems)
                 end;
               oc_items :=
                 Some (projected
                         (CollectionHandlerParameters.filterPredicate p)
                         (items page));
               oc_first := None;
               oc_last := None |}))
  /\ List.filter is_dispatch (trace r) = [Dispatched None true]
  /\ (forall cursor, LastCursorCalled cursor ∉ trace r).
Proof.
  destruct p as [name handle filter fp context cbs onU onNF onNA].
  destruct callbacks as [dispatcher counter firstCursor lastCursor ap].
  simpl. intros -> Hcursor Hfirst Hpage Hacc Hauth.
  unfold handleCollection, collection_authorized in *; simpl in *.
  rewrite Hcursor. unfold_prog.
  destruct firstCursor as [fc|]; simpl in *; [rewrite Hfirst|]; simpl.
  all: destruct counter as [counter|]; simpl; rewrite Hpage; simpl;
    rewrite filterCollectionItems_run; simpl; rewrite Hacc; simpl.
  all: destruct ap as [authorize|]; simpl;
    [rewrite (Hauth authorize eq_refl); simpl|].
  all: fix_warning.
  all: try destruct (counter handle); simpl.
  all: conjuncts; try reflexivity.
  all: intros cursor Hin; in_trace Hin.
Qed.

Lemma collection_without_cursors_is_inlined_witness :
  outcome (run (@handleCollection unit Demo.externals
                  (Demo.fetch Demo.summary_url)
                  (Demo.collection Demo.summary_url
                     (Some (Demo.inline (Some (fun _ => CNull))
                              Demo.mixed_items)))) tt)
  = Responded
      (ok_json
         (ECollection
            {| oc_totalItems := None;
               oc_items :=
                 Some [MURL Demo.u1; MObject Demo.note;
                       MURL (Demo.iri "https://e/@bob");
                       MLink (mkLink "https://e/l")];
               oc_first := None;
               oc_last := None |})).
Proof.
  apply (@collection_without_cursors_is_inlined Demo.externals unit tt
           (Demo.fetch Demo.summary_url)
           (Demo.collection Demo.summary_url
              (Some (Demo.inline (Some (fun _ => CNull)) Demo.mixed_items)))
           (Demo.inline (Some (fun _ => CNull)) Demo.mixed_items)
           {| items := Demo.mixed_items; prevCursor := None;
              nextCursor := None |}
           eq_refl eq_refl eq_refl eq_refl eq_refl).
  intros authorize Hsome. discriminate Hsome.
Defined.


(** A summary that offers cursors does no item work: for a request
    without cursor whose [firstCursor] answers a cursor, the dispatcher is
    never called, no item is projected or filtered, and the request is
    never answered with [onNotFound]; the callbacks are called in the
    order [firstCursor], [counter], [lastCursor]. *)
Theorem cursoring_summary_does_not_dispatch `{Externals} {St} (s : St)
    (request : Request) (p : CollectionHandlerParameters.t) callbacks
    firstCursor first :
  let r := run (handleCollection request p) s in
  CollectionHandlerParameters.collectionCallbacks p = Some callbacks ->
  SearchParams.get "cursor" (searchParams (req_url request)) = None ->
  CollectionCallbacks.firstCursor callbacks = Some firstCursor ->
  firstCursor (CollectionHandlerParameters.handle p) = Some first ->
  occurs is_dispatch (trace r) = false
  /\ occurs is_warning (trace r) = false
  /\ (OnNotFound ∉ trace r)
  /\ List.filter is_summary_callback (trace r)
     = [FirstCursorCalled (Some first)]
       ++ match CollectionCallbacks.counter callbacks with
          | Some _ => [CounterCalled]
          | None => []
          end
       ++ match CollectionCallbacks.lastCursor callbacks with
          | Some lastCursor =>
              [LastCursorCalled
                 (lastCursor (CollectionHandlerParameters.handle p))]
          | None => []
          end.
Proof.
  destruct p as [name handle filter fp context cbs onU onNF onNA].
  destruct callbacks as [dispatcher counter fc lastCursor ap].
  simpl. intros -> Hcursor -> Hfirst.
  unfold handleCollection; simpl.
  rewrite Hcursor. unfold_prog. rewrite Hfirst. simpl.
  destruct counter as [counter|], lastCursor as [lastCursor|]; simpl.
  all: repeat (destruct_scrutinee; simpl).
  all: conjuncts; try reflexivity.
  all: intros Hin; in_trace Hin.
Qed.

Lemma cursoring_summary_does_not_dispatch_witness :
  occurs is_dispatch
    (trace (run (@handleCollection unit Demo.externals
                   (Demo.get Demo.summary_url (Some "text/html"))
                   (Demo.collection Demo.summary_url
                      (Some (Demo.paged None None)))) tt)) = false.
Proof.
  apply (@cursoring_summary_does_not_dispatch Demo.externals unit tt
           (Demo.get Demo.summary_url (Some "text/html"))
           (Demo.collection Demo.summary_url (Some (Demo.paged None None)))
           (Demo.paged None None) (fun _ => Some "c0") "c0"
           eq_refl eq_refl eq_refl eq_refl).
Defined.

(** The collection is built before the request is negotiated: no data
    callback (dispatcher, counter, cursors) is called and no item is
    filtered after the negotiation, and a negotiation is always preceded
    by a data callback, so that a request refused with 406 or 401 has
    already been dispatched. *)
Theorem collection_is_built_before_negotiation `{Externals} {St} (s : St)
    (request : Request) (p : CollectionHandlerParameters.t) :
  let t := trace (run (handleCollection request p) s) in
  never_followed_by is_negotiation is_collection_data_callback t
  /\ never_followed_by is_negotiation is_warning t
  /\ preceded_by is_collection_data_callback is_negotiation t
  /\ (forall cursor,
        SearchParams.get "cursor" (searchParams (req_url request))
        = Some cursor ->
        occurs is_negotiation t = true ->
        Dispatched (Some cursor) true ∈ t).
Proof.
  intros t.
  assert (Ht : t = trace (run (handleCollection request p) s)) by reflexivity.
  clearbody t. revert t Ht.
  destruct p as [name handle filter fp context cbs onU onNF onNA].
  unfold handleCollection. run_cases.
  all: intros ? ->; simpl; fix_warning; conjuncts; try order.
  all: intros cursor Hcursor Hneg; simplify_eq; find_event.
Qed.

Lemma collection_is_built_before_negotiation_witness :
  Dispatched (Some "p5") true
  ∈ trace (run (@handleCollection unit Demo.externals
                  (Demo.get Demo.page_url (Some "text/html"))
                  (Demo.collection Demo.page_url
                     (Some (Demo.paged None None)))) tt).
Proof.
  apply (proj2 (proj2 (proj2
           (@collection_is_built_before_negotiation Demo.externals unit tt
              (Demo.get Demo.page_url (Some "text/html"))
              (Demo.collection Demo.page_url (Some (Demo.paged None None))))))
           "p5").
  - reflexivity.
  - reflexivity.
Defined.

(** ** Following the links of a collection *)

Lemma delete_set name value ps :
  SearchParams.delete name (SearchParams.set name value ps)
  = SearchParams.delete name ps.
Proof.
  assert (D : forall qs, SearchParams.delete name (SearchParams.delete name qs)
                         = SearchParams.delete name qs).
  { induction qs as [|[n v] qs IH]; simpl; [done|].
    destruct (String.eqb n name) eqn:E; simpl; [done|]. by rewrite E, IH. }
  induction ps as [|[n v] ps IH]; simpl.
  - by rewrite String.eqb_refl.
  - destruct (String.eqb n name) eqn:E; simpl; rewrite E; [apply D|].
    by rewrite IH.
Qed.

Lemma set_set name value value' ps :
  SearchParams.set name value' (SearchParams.set name value ps)
  = SearchParams.set name value' ps.
Proof.
  assert (D : forall qs, SearchParams.delete name (SearchParams.delete name qs)
                         = SearchParams.delete name qs).
  { induction qs as [|[n v] qs IH]; simpl; [done|].
    destruct (String.eqb n name) eqn:E; simpl; [done|]. by rewrite E, IH. }
  induction ps as [|[n v] ps IH]; simpl.
  - by rewrite String.eqb_refl.
  - destruct (String.eqb n name) eqn:E; simpl; rewrite E.
    + by rewrite D.
    + by rewrite IH.
Qed.

(** What a collection response links to is the context URL with the
    cursor set, and the [partOf] of a page is the context URL without
    cursor. *)
Lemma collection_links_shape `{Externals} {St} (s : St) (request : Request)
    (p : CollectionHandlerParameters.t) entity :
  ToJsonLd entity ∈ trace (run (handleCollection request p) s) ->
  (forall u, u ∈ links entity ->
             exists cursor,
               u = url_with_param "cursor" cursor
                     (context_url (CollectionHandlerParameters.context p)))
  /\ (forall page, entity = ECollectionPage page ->
        ocp_partOf page
        = url_without_param "cursor"
            (context_url (CollectionHandlerParameters.context p))).
Proof.
  revert entity.
  destruct p as [name handle filter fp context cbs onU onNF onNA].
  unfold handleCollection. run_cases.
  all: intros entity Hin; in_trace Hin.
  all: split; [|intros page Hpage; by simplify_eq].
  all: intros u Hu; unfold links in Hu; simpl in Hu.
  all: repeat first
         [ apply elem_of_cons in Hu as [->|Hu]
         | apply elem_of_nil in Hu; destruct Hu ].
  all: by eexists.
Qed.

(** Pagination is stable under following links: a request made at a link
    of a collection response ([first], [last], [prev] or [next]) is a
    page request for the cursor of that link, the page it is answered
    with has the [partOf] of the request that emitted the link, and its
    own links are what the first request would have emitted for the same
    cursors. *)
Theorem following_a_link_keeps_the_collection `{Externals} {St} (s s' : St)
    (request request' : Request) (p p' : CollectionHandlerParameters.t)
    entity link :
  context_url (CollectionHandlerParameters.context p) = req_url request ->
  context_url (CollectionHandlerParameters.context p') = req_url request' ->
  ToJsonLd entity ∈ trace (run (handleCollection request p) s) ->
  link ∈ links entity ->
  req_url request' = link ->
  (exists cursor,
      link = url_with_param "cursor" cursor (req_url request)
      /\ SearchParams.get "cursor" (searchParams (req_url request'))
         = Some cursor)
  /\ (forall page',
        ToJsonLd (ECollectionPage page')
        ∈ trace (run (handleCollection request' p') s') ->
        ocp_partOf page' = url_without_param "cursor" (req_url request)
        /\ (forall page, entity = ECollectionPage page ->
                         ocp_partOf page' = ocp_partOf page)
        /\ (forall u, u ∈ links (ECollectionPage page') ->
                      exists cursor,
                        u = url_with_param "cursor" cursor (req_url request))).
Proof.
  intros Hctx Hctx' Hentity Hlink Hrequest'.
  destruct (collection_links_shape s request p entity Hentity)
    as [Hlinks HpartOf].
  destruct (Hlinks link Hlink) as [cursor Hcursor].
  rewrite Hctx in Hcursor.
  split.
  - exists cursor. split; [exact Hcursor|].
    rewrite Hrequest', Hcursor. simpl. apply get_set_eq.
  - intros page' Hpage'.
    destruct (collection_links_shape s' request' p' _ Hpage')
      as [Hlinks' HpartOf'].
    specialize (HpartOf' page' eq_refl).
    rewrite Hctx', Hrequest', Hcursor in HpartOf'.
    assert (Hsame : ocp_partOf page'
                    = url_without_param "cursor" (req_url request)).
    { rewrite HpartOf'. unfold url_without_param, url_with_param. simpl.
      by rewrite delete_set. }
    split; [exact Hsame|]. split.
    + intros page ->. rewrite Hsame, (HpartOf page eq_refl). by rewrite Hctx.
    + intros u Hu. destruct (Hlinks' u Hu) as [cursor' ->].
      exists cursor'. rewrite Hctx', Hrequest', Hcursor.
      unfold url_with_param. simpl. by rewrite set_set.
Qed.

Lemma following_a_link_keeps_the_collection_witness :
  exists cursor,
    mkURL "https://h/x" [("cursor", "p6")] ""
    = url_with_param "cursor" cursor Demo.page_url
    /\ SearchParams.get "cursor"
         (searchParams
            (req_url (Demo.get (mkURL "https://h/x" [("cursor", "p6")] "")
                        None)))
       = Some cursor.
Proof.
  apply (proj1
           (@following_a_link_keeps_the_collection Demo.externals unit tt tt
              (Demo.fetch Demo.page_url)
              (Demo.fetch (mkURL "https://h/x" [("cursor", "p6")] ""))
              (Demo.collection Demo.page_url (Some (Demo.paged None None)))
              (Demo.collection (mkURL "https://h/x" [("cursor", "p6")] "")
                 (Some (Demo.paged None None)))
              (ECollectionPage
                 {| ocp_prev := Some (mkURL "https://h/x" [("cursor", "p4")] "");
                    ocp_next := Some (mkURL "https://h/x" [("cursor", "p6")] "");
                    ocp_items := [MURL Demo.u1];
                    ocp_partOf := mkURL "https://h/x" [] "" |})
              (mkURL "https://h/x" [("cursor", "p6")] "")
              eq_refl eq_refl
              ltac:(vm_compute; find_event)
              ltac:(unfold links; simpl; find_event)
              eq_refl)).
Defined.
